(** * Zeeguu API endpoints (zeeguu/api/endpoints.py)

    A shallow embedding of the endpoint layer: the session decorator, the
    cross-origin decorator and the handlers that record lookups and
    contributions, list contributions by day and call the translation
    provider.  Handlers are computations in a state-and-exception monad
    over the unit of work of the ORM, the ambient [flask.g] slot and the
    wall clock. *)

From Stdlib Require Import ZArith Lia Ascii String List Sorted Permutation.
From stdpp Require Import base tactics option list gmap strings sorting.

Local Open Scope Z_scope.
Local Open Scope string_scope.
Local Open Scope list_scope.
Local Set Warnings "-register-all".

(** ** Strings *)

(** [str.replace(old, new)] for one-character [old] and [new]. *)
Fixpoint str_replace (old new : ascii) (s : string) : string :=
  match s with
  | EmptyString => EmptyString
  | String c rest =>
      String (if Ascii.eqb c old then new else c) (str_replace old new rest)
  end.

(** [def decode_word(word): return word.replace("+", " ")] *)
Definition decode_word (word : string) : string :=
  str_replace "+"%char " "%char word.

(** ** [int(...)] on a query-string value

    Python 2 [int] applied to a unicode string, base 10; characters are
    code points below 256.  Surrounding white space is skipped, one sign
    is accepted, white space may follow the sign, and at least one decimal
    digit must remain, followed only by white space. *)

Definition unicode_isspace (c : ascii) : bool :=
  let n := N_of_ascii c in
  ((9 <=? n) && (n <=? 13) || (28 <=? n) && (n <=? 32)
   || (n =? 133) || (n =? 160))%N.

Definition is_digit (c : ascii) : bool :=
  let n := N_of_ascii c in ((48 <=? n) && (n <=? 57))%N.

Definition digit_value (c : ascii) : Z := Z.of_N (N_of_ascii c) - 48.

Fixpoint skip_space (s : string) : string :=
  match s with
  | String c rest => if unicode_isspace c then skip_space rest else s
  | EmptyString => EmptyString
  end.

(** Reads the digits of [s] into the accumulator; [None] when a character
    other than a digit is met before the trailing white space. *)
Fixpoint read_digits (acc : Z) (s : string) : option Z :=
  match s with
  | EmptyString => Some acc
  | String c rest =>
      if is_digit c then read_digits (10 * acc + digit_value c) rest
      else match skip_space s with
           | EmptyString => Some acc
           | String _ _ => None
           end
  end.

Definition read_unsigned (s : string) : option Z :=
  match skip_space s with
  | String c rest =>
      if is_digit c then read_digits 0 (String c rest) else None
  | EmptyString => None
  end.

Definition python_int (s : string) : option Z :=
  match skip_space s with
  | String "+" rest => read_unsigned rest
  | String "-" rest => Z.opp <$> read_unsigned rest
  | _ => read_unsigned s
  end.

(** ** Data model (zeeguu.model)

    Modelled from the spec: the classes of [zeeguu.model] are not among
    the sources; the rows below follow section 3 and carry the attributes
    that the endpoints read or pass to constructors.  Immutable rows ([Language], [Word], [Url], [Text], [Contribution]) are
    held by value where the ORM holds a reference. Instants are
    microseconds on the naive local time line. *)

Record Language := mkLanguage {
  language_id : string;
  language_offered : bool }.

Record Word := mkWord {
  word_id : Z;
  word : string;
  word_language : Language }.

Record Url := mkUrl {
  url_id : Z;
  url : string;
  title : string }.

Record Text := mkText {
  text_id : Z;
  content : string;
  text_language : Language;
  text_url : option Url }.

Record Contribution := mkContribution {
  contribution_id : Z;
  origin : Word;
  translation : Word;
  contribution_user : Z;
  contribution_text : Text;
  contribution_time : Z }.

Record Search := mkSearch {
  search_id : Z;
  search_user : Z;
  search_word : Word;
  search_language : Language;
  search_text : option Text;
  search_contribution : option Contribution }.

Record Session := mkSession {
  session_id : Z;
  session_user : Z;
  last_use : Z }.

Record User := mkUser {
  user_id : Z;
  email : string;
  learned_language : option Language;
  native_language : option Language }.

(** The tables as the unit of work sees them.  Sessions and users are
    fetched by primary key; the other tables are kept in insertion order. *)
Record Store := mkStore {
  sessions : gmap Z Session;
  users : gmap Z User;
  languages : list Language;
  words : list Word;
  urls : list Url;
  texts : list Text;
  searches : list Search;
  contributions : list Contribution;
  readings : list (Z * Text) }.

Definition set_sessions (f : gmap Z Session -> gmap Z Session) (st : Store) :=
  mkStore (f (sessions st)) (users st) (languages st) (words st) (urls st)
          (texts st) (searches st) (contributions st) (readings st).
Definition set_words (f : list Word -> list Word) (st : Store) :=
  mkStore (sessions st) (users st) (languages st) (f (words st)) (urls st)
          (texts st) (searches st) (contributions st) (readings st).
Definition set_urls (f : list Url -> list Url) (st : Store) :=
  mkStore (sessions st) (users st) (languages st) (words st) (f (urls st))
          (texts st) (searches st) (contributions st) (readings st).
Definition set_texts (f : list Text -> list Text) (st : Store) :=
  mkStore (sessions st) (users st) (languages st) (words st) (urls st)
          (f (texts st)) (searches st) (contributions st) (readings st).
Definition set_searches (f : list Search -> list Search) (st : Store) :=
  mkStore (sessions st) (users st) (languages st) (words st) (urls st)
          (texts st) (f (searches st)) (contributions st) (readings st).
Definition set_contributions
    (f : list Contribution -> list Contribution) (st : Store) :=
  mkStore (sessions st) (users st) (languages st) (words st) (urls st)
          (texts st) (searches st) (f (contributions st)) (readings st).
Definition set_readings (f : list (Z * Text) -> list (Z * Text)) (st : Store) :=
  mkStore (sessions st) (users st) (languages st) (words st) (urls st)
          (texts st) (searches st) (contributions st) (f (readings st)).

(** The store assigns one more than the largest key in use. *)
Definition next_id (ids : list Z) : Z := 1 + fold_right Z.max 0 ids.

(** ** The world of a request

    [pending] is the unit of work ([zeeguu.db.session]) and [committed]
    what the last commit stored; [g_user] is the slot [flask.g.user];
    [clock] gives the successive readings of [datetime.datetime.now()] and
    [ticks] counts the readings taken so far. *)
Record World := mkWorld {
  pending : Store;
  committed : Store;
  g_user : option Z;
  clock : nat -> Z;
  ticks : nat }.

Definition set_pending (f : Store -> Store) (w : World) : World :=
  mkWorld (f (pending w)) (committed w) (g_user w) (clock w) (ticks w).

(** ** Computations: state and exceptions *)

Inductive exn :=
| HTTPException (code : Z)
| NotFound
| ValueError
| AttributeError
| KeyError.

Inductive outcome (A : Type) :=
| Returns (a : A)
| Raises (e : exn).
Arguments Returns {A} a.
Arguments Raises {A} e.

Definition M (A : Type) : Type := World -> outcome A * World.

Definition ret {A} (a : A) : M A := fun w => (Returns a, w).

Definition bind {A B} (m : M A) (k : A -> M B) : M B :=
  fun w =>
    match m w with
    | (Returns a, w') => k a w'
    | (Raises e, w') => (Raises e, w')
    end.

Definition raise {A} (e : exn) : M A := fun w => (Raises e, w).

Declare Scope comp_scope.
Delimit Scope comp_scope with comp.
Notation "'let*' x ':=' m 'in' k" := (bind m (fun x => k))
  (at level 10, x name, m at level 100, k at level 200) : comp_scope.
Notation "'run' m 'in' k" := (bind m (fun _ => k))
  (at level 10, m at level 100, k at level 200) : comp_scope.
Local Open Scope comp_scope.

(** [flask.abort(code)] *)
Definition flask_abort {A} (code : Z) : M A := raise (HTTPException code).

Definition get_store : M Store := fun w => (Returns (pending w), w).

Definition modify_store (f : Store -> Store) : M unit :=
  fun w => (Returns tt, set_pending f w).

(** [datetime.datetime.now()] *)
Definition datetime_now : M Z :=
  fun w => (Returns (clock w (ticks w)),
            mkWorld (pending w) (committed w) (g_user w) (clock w)
                    (S (ticks w))).

(** [flask.g.user = u] *)
Definition set_g_user (u : Z) : M unit :=
  fun w => (Returns tt,
            mkWorld (pending w) (committed w) (Some u) (clock w) (ticks w)).

(** Reading [flask.g.user]; the attribute is missing outside a session. *)
Definition get_g_user : M Z :=
  fun w => match g_user w with
           | Some u => (Returns u, w)
           | None => (Raises AttributeError, w)
           end.

(** [zeeguu.db.session.commit()] *)
Definition db_session_commit : M unit :=
  fun w => (Returns tt,
            mkWorld (pending w) (pending w) (g_user w) (clock w) (ticks w)).

(** ** Flask: requests, responses, view results *)

Record Request := mkRequest {
  args : gmap string string;
  form : gmap string string }.

Inductive json :=
| JNull
| JNum (n : Z)
| JStr (s : string)
| JList (items : list json)
| JObj (fields : list (string * json)).

(** The payload of a response: text, or the value handed to
    [json.dumps]. *)
Inductive Body :=
| BodyText (s : string)
| BodyJson (j : json).

Record Response := mkResponse {
  status : Z;
  headers : gmap string string;
  mimetype : string;
  body : Body }.

(** What a view function returns. *)
Inductive view_result :=
| RvStr (s : string)
| RvNone
| RvResponse (r : Response).

Definition View : Type := Request -> M view_result.

(** [flask.request.form[key]]: a missing key is a bad request. *)
Definition form_getitem (key : string) (req : Request) : M string :=
  match form req !! key with
  | Some v => ret v
  | None => flask_abort 400
  end.

(** [flask.make_response(rv)] *)
Definition flask_make_response (rv : view_result) : M Response :=
  match rv with
  | RvStr s => ret (mkResponse 200 ∅ "text/html" (BodyText s))
  | RvResponse r => ret r
  | RvNone => raise ValueError
  end.

(** [response.headers[name] = value] *)
Definition set_header (name value : string) (r : Response) : Response :=
  mkResponse (status r) (<[name := value]> (headers r)) (mimetype r) (body r).

(** [flask.Response(js, status=200, mimetype='application/json')] with
    [js = json.dumps(j)]. *)
Definition json_response (j : json) : Response :=
  mkResponse 200 ∅ "application/json" (BodyJson j).

(** What the framework sends when a view raises: the response of the HTTP
    exception itself, or a server error for any other exception. *)
Definition error_response (e : exn) : Response :=
  match e with
  | HTTPException code => mkResponse code ∅ "text/html" (BodyText EmptyString)
  | _ => mkResponse 500 ∅ "text/html" (BodyText EmptyString)
  end.

(** Serving one request with a view. *)
Definition flask_dispatch (view : View) (req : Request) (w : World)
  : Response * World :=
  match bind (view req) flask_make_response w with
  | (Returns r, w') => (r, w')
  | (Raises e, w') => (error_response e, w')
  end.

(** ** Operations of zeeguu.model *)

(** An argument that is a language code, a [Language] or [None]. *)
Inductive lang_arg :=
| LangCode (code : string)
| LangObject (l : Language)
| LangNone.

(** The language that the reference data lists under a code. *)
Definition known_language (code : string) (st : Store) : option Language :=
  List.find (fun l => String.eqb (language_id l) code) (languages st).

(** Modelled from the spec: [model.Language.find] is not among the sources;
    section 4.2 has it return the language of a recognised code and fail
    with NotFound otherwise.  The languages are static reference data. *)
Definition Language_find (code : lang_arg) : M Language :=
  let* st := get_store in
  match code with
  | LangCode c =>
      match known_language c st with
      | Some l => ret l
      | None => raise NotFound
      end
  | _ => raise NotFound
  end.

Definition same_language (a b : Language) : bool :=
  String.eqb (language_id a) (language_id b).

(** Modelled from the spec: [model.Word.find] is not among the sources;
    sections 3 and 4.2 make a word a (text, language) pair matched exactly,
    the stored row being returned when there is one and a row being created
    otherwise. *)
Definition Word_find (text : string) (language : Language) : M Word :=
  let* st := get_store in
  match List.find (fun x => String.eqb (word x) text
                            && same_language (word_language x) language)
                  (words st) with
  | Some x => ret x
  | None =>
      let x := mkWord (next_id (map word_id (words st))) text language in
      run modify_store (set_words (fun l => l ++ [x])) in
      ret x
  end.

(** Modelled from the spec: [model.Url.find] is not among the sources;
    section 4.2 keys a url by its address alone and writes the title only
    when the row is created. *)
Definition Url_find (address url_title : string) : M Url :=
  let* st := get_store in
  match List.find (fun x => String.eqb (url x) address) (urls st) with
  | Some x => ret x
  | None =>
      let x := mkUrl (next_id (map url_id (urls st))) address url_title in
      run modify_store (set_urls (fun l => l ++ [x])) in
      ret x
  end.

(** Modelled from the spec: the constructor [model.Text] is not among the
    sources; section 4.2 has every text be a new row, never matched
    against the stored ones. *)
Definition Text_new (text_content : string) (language : Language)
    (u : option Url) : M Text :=
  let* st := get_store in
  let x := mkText (next_id (map text_id (texts st))) text_content language u in
  run modify_store (set_texts (fun l => l ++ [x])) in
  ret x.

(** Modelled from the spec: [model.Text.find] is not among the sources;
    sections 3 and 4.3 have a lookup with raw content create its text,
    texts being created per occurrence; the two-argument call names no
    url. *)
Definition Text_find (text_content : string) (language : Language) : M Text :=
  Text_new text_content language None.

(** Modelled from the spec: [User.read] is not among the sources and the
    spec does not describe it; it is taken to log the text as read by the
    user and to leave every other table alone. *)
Definition User_read (user : Z) (text : Text) : M unit :=
  modify_store (set_readings (fun l => l ++ [(user, text)])).

(** Modelled from the spec: the constructor [model.Contribution] is not
    among the sources; section 3 makes a contribution of an origin word, a
    translation word, a user, a text and a timestamp.  The row gets its key
    from the store. *)
Definition Contribution_new (o t : Word) (user : Z) (text : Text) (time : Z)
  : M Contribution :=
  let* st := get_store in
  ret (mkContribution (next_id (map contribution_id (contributions st)))
                      o t user text time).

(** [zeeguu.db.session.add(contribution)] *)
Definition db_session_add (c : Contribution) : M unit :=
  modify_store (set_contributions (fun l => l ++ [c])).

(** Modelled from the spec: the constructor [model.Search] is not among
    the sources; section 3 makes a search of a user, an origin word, a
    target language and an optional text, with no contribution yet. *)
Definition Search_new (user : Z) (w : Word) (language : Language)
    (text : option Text) : M Search :=
  let* st := get_store in
  ret (mkSearch (next_id (map search_id (searches st)))
                user w language text None).

(** [user.searches.append(search)] *)
Definition user_searches_append (s : Search) : M unit :=
  modify_store (set_searches (fun l => l ++ [s])).

(** [filter_by(user=..., word=..., language=...)]: rows are compared by
    key. *)
Definition search_matches (user : Z) (w : Word) (language : Language)
    (s : Search) : bool :=
  (search_user s =? user)%Z
  && (word_id (search_word s) =? word_id w)%Z
  && same_language (search_language s) language.

(** [order_by(model.Search.id.desc())] *)
Fixpoint insert_by_id_desc (s : Search) (l : list Search) : list Search :=
  match l with
  | [] => [s]
  | x :: rest =>
      if (search_id x <? search_id s)%Z then s :: l
      else x :: insert_by_id_desc s rest
  end.

Definition order_by_id_desc (l : list Search) : list Search :=
  fold_right insert_by_id_desc [] l.

(** [model.Search.query.filter_by(...).order_by(...).first()] *)
Definition Search_query_first (user : Z) (w : Word) (language : Language)
  : M (option Search) :=
  let* st := get_store in
  ret (head (order_by_id_desc
               (List.filter (search_matches user w language) (searches st)))).

(** [search.contribution = c]: the row of that key is updated and the new
    contribution joins the unit of work through the relationship. *)
Definition set_search_contribution (c : Contribution) (s : Search) : Search :=
  mkSearch (search_id s) (search_user s) (search_word s) (search_language s)
           (search_text s) (Some c).

Definition attach_contribution (key : Z) (c : Contribution)
    (l : list Search) : list Search :=
  map (fun s => if (search_id s =? key)%Z then set_search_contribution c s else s) l.

Definition Search_set_contribution (s : Search) (c : Contribution) : M unit :=
  run modify_store (set_searches (attach_contribution (search_id s) c)) in
  modify_store (set_contributions (fun l => l ++ [c])).

(** [model.Session.query.get(session_id)] *)
Definition Session_query_get (key : Z) : M (option Session) :=
  let* st := get_store in ret (sessions st !! key).

Definition set_last_use (t : Z) (s : Session) : Session :=
  mkSession (session_id s) (session_user s) t.

(** Modelled from the spec: [Session.update_use_date] is not among the
    sources; section 4.1 has a resolved session's time of last use set to
    the current time. *)
Definition Session_update_use_date (key : Z) : M unit :=
  let* now := datetime_now in
  modify_store (set_sessions (alter (set_last_use now) key)).

(** ** The decorators *)

(** [with_session]: the view runs only under a session that the store
    knows; [int(flask.request.args['session'])] sits in a [try] whose bare
    [except] aborts. *)
Definition with_session (view : View) : View := fun req =>
  match args req !! "session" with
  | None => flask_abort 401
  | Some value =>
      match python_int value with
      | None => flask_abort 401
      | Some key =>
          let* session := Session_query_get key in
          match session with
          | None => flask_abort 401
          | Some s =>
              run set_g_user (session_user s) in
              run Session_update_use_date key in
              view req
          end
      end
  end.

(** [cross_domain]: the header is put on the response that the view
    returned. *)
Definition cross_domain (view : View) : View := fun req =>
  let* rv := view req in
  let* response := flask_make_response rv in
  ret (RvResponse (set_header "Access-Control-Allow-Origin" "*" response)).

(** ** Days *)

Definition microseconds_per_day : Z := 86400000000.

(** The calendar day an instant falls on, as a day number. *)
Definition calendar_date (t : Z) : Z := t `div` microseconds_per_day.

Fixpoint mapM {A B} (f : A -> M B) (l : list A) : M (list B) :=
  match l with
  | [] => ret []
  | x :: rest =>
      let* y := f x in
      let* ys := mapM f rest in
      ret (y :: ys)
  end.

(** [d[key]] on a dictionary *)
Definition dict_getitem {V} (d : gmap Z V) (key : Z) : M V :=
  match d !! key with
  | Some v => ret v
  | None => raise KeyError
  end.

(** ** The view functions *)

Module views.
Section Views.

(** The translation provider, [goslate.Goslate().translate(text, target,
    source)], and the library formatting [date.strftime("%A, %d %B")]. *)
Variable Goslate_translate : string -> string -> string -> M string.
Variable strftime : Z -> string.

(** Modelled from the spec: section 4.3 groups contributions by the
    calendar date of the associated text, and section 3 lists no instant
    among the attributes of a text; the instant a text is dated at is
    left open. *)
Variable Text_time : Text -> Z.

Definition contribution_date (c : Contribution) : Z :=
  calendar_date (Text_time (contribution_text c)).

(** Modelled from the spec: [User.all_contributions] is not among the
    sources; section 4.3 lists a user's contributions in creation
    order. *)
Definition all_contributions (user : Z) (st : Store) : list Contribution :=
  List.filter (fun c => (contribution_user c =? user)%Z) (contributions st).

Definition add_to_bucket (m : gmap Z (list Contribution)) (c : Contribution)
  : gmap Z (list Contribution) :=
  <[contribution_date c := default [] (m !! contribution_date c) ++ [c]]> m.

(** Modelled from the spec: [User.contribs_by_date] is not among the
    sources; section 4.3 has it return the mapping from calendar date to
    the contributions of that day, in order, and the distinct dates in
    descending order. *)
Definition User_contribs_by_date (user : Z)
  : M (gmap Z (list Contribution) * list Z) :=
  let* st := get_store in
  let by_date := fold_left add_to_bucket (all_contributions user st) ∅ in
  ret (by_date, merge_sort Z.ge (map_to_list by_date).*1).

Definition validate : View := fun _ => ret (RvStr "OK").

Definition contrib_entry (with_context : bool) (c : Contribution) : M json :=
  match text_url (contribution_text c) with
  | None => raise AttributeError
  | Some u =>
      let contrib :=
        [("id", JNum (contribution_id c));
         ("from", JStr (word (origin c)));
         ("to", JStr (word (translation c)));
         ("title", JStr (title u));
         ("url", JStr (url u))] in
      ret (JObj (if with_context
                 then contrib ++ [("context", JStr (content (contribution_text c)))]
                 else contrib))
  end.

Definition date_entry (with_context : bool)
    (contribs_by_date : gmap Z (list Contribution)) (date : Z) : M json :=
  let* day := dict_getitem contribs_by_date date in
  let* contribs := mapM (contrib_entry with_context) day in
  ret (JObj [("date", JStr (strftime date)); ("contribs", JList contribs)]).

Definition contributions_by_day (return_context : string) : View := fun _ =>
  let with_context := String.eqb return_context "with_context" in
  let* user := get_g_user in
  let* grouped := User_contribs_by_date user in
  let* dates := mapM (date_entry with_context (fst grouped)) (snd grouped) in
  ret (RvResponse (json_response (JList dates))).

Definition translate (w from_lang_code : string) : View := fun _ =>
  let* text := Goslate_translate w "en" from_lang_code in
  ret (RvStr text).

Definition translate_from_to (w from_lang_code to_lang_code : string)
  : View := fun _ =>
  let* text := Goslate_translate w to_lang_code from_lang_code in
  ret (RvStr text).

Definition translate_from_to_with_context
    (w from_lang_code to_lang_code : string) : View := fun req =>
  let* context := form_getitem "context" req in
  let* url := form_getitem "url" req in
  let* text := Goslate_translate w to_lang_code from_lang_code in
  ret (RvStr text).

Definition contribute_with_context
    (from_lang_code term to_lang_code translation : string) : View :=
  fun req =>
  let contributed_url_title := default EmptyString (form req !! "title") in
  let* contributed_url := form_getitem "url" req in
  let* context := form_getitem "context" req in
  let* url := Url_find contributed_url contributed_url_title in
  let* from_lang := Language_find (LangCode from_lang_code) in
  let* to_lang := Language_find (LangCode to_lang_code) in
  let* w := Word_find (decode_word term) from_lang in
  let* translation := Word_find (decode_word translation) to_lang in
  let* user := get_g_user in
  let* search := Search_query_first user w to_lang in
  let* new_text := Text_new context from_lang (Some url) in
  let* now := datetime_now in
  let* contribution := Contribution_new w translation user new_text now in
  run match search with
      | Some s => Search_set_contribution s contribution
      | None => db_session_add contribution
      end in
  run db_session_commit in
  ret (RvStr "OK").

Definition lookup (from_lang term : string) (to_lang : lang_arg) : View :=
  fun req =>
  let* from_lang := Language_find (LangCode from_lang) in
  let* to_lang := match to_lang with
                  | LangObject l => ret l
                  | _ => Language_find to_lang
                  end in
  let* user := get_g_user in
  let* text := match form req !! "text" with
               | Some text_content =>
                   let* text := Text_find text_content from_lang in
                   run User_read user text in
                   ret (Some text)
               | None => ret None
               end in
  let* w := Word_find (decode_word term) from_lang in
  let* search := Search_new user w to_lang text in
  run user_searches_append search in
  run db_session_commit in
  ret (RvStr "OK").

End Views.
End views.

(** ** The routes of the blueprint *)

Module api.
Section Routes.

Variable Goslate_translate : string -> string -> string -> M string.
Variable strftime : Z -> string.
Variable Text_time : Text -> Z.

Definition validate : View := cross_domain (with_session views.validate).

Definition contributions_by_day (return_context : string) : View :=
  cross_domain
    (with_session
       (views.contributions_by_day strftime Text_time return_context)).

Definition translate (w from_lang_code : string) : View :=
  cross_domain (views.translate Goslate_translate w from_lang_code).

Definition translate_from_to (w from_lang_code to_lang_code : string)
  : View :=
  cross_domain
    (views.translate_from_to Goslate_translate w from_lang_code to_lang_code).

Definition translate_from_to_with_context
    (w from_lang_code to_lang_code : string) : View :=
  cross_domain
    (views.translate_from_to_with_context
       Goslate_translate w from_lang_code to_lang_code).

Definition contribute_with_context
    (from_lang_code term to_lang_code translation : string) : View :=
  cross_domain
    (with_session
       (views.contribute_with_context
          from_lang_code term to_lang_code translation)).

Definition lookup (from_lang term : string) (to_lang : lang_arg) : View :=
  cross_domain (with_session (views.lookup from_lang term to_lang)).

(** [lookup_preferred] calls the decorated [lookup] with the learned
    language of the user, a [Language] or [None]. *)
Definition lookup_preferred (from_lang term : string) : View :=
  cross_domain
    (with_session
       (fun req =>
          let* user := get_g_user in
          let* st := get_store in
          match users st !! user with
          | None => raise AttributeError
          | Some u =>
              lookup from_lang term
                     (match learned_language u with
                      | Some l => LangObject l
                      | None => LangNone
                      end) req
          end)).

End Routes.
End api.

(** ** Auxiliary notions used in the statements *)

Definition decode_char (c : ascii) : ascii :=
  if Ascii.eqb c "+" then " "%char else c.

(** The session that the [session] parameter of a request resolves to. *)
Definition resolve_session (req : Request) (w : World) : option Session :=
  value ← args req !! "session";
  key ← python_int value;
  sessions (pending w) !! key.

(** The word, the url and the tables that [Word_find] and [Url_find] leave
    behind, as functions of the store they start from. *)
Definition stored_word (text : string) (language : Language) (st : Store)
  : option Word :=
  List.find (fun x => String.eqb (word x) text
                      && same_language (word_language x) language)
            (words st).

Definition found_word (text : string) (language : Language) (st : Store)
  : Word :=
  default (mkWord (next_id (map word_id (words st))) text language)
          (stored_word text language st).

Definition words_after (text : string) (language : Language) (st : Store)
  : list Word :=
  match stored_word text language st with
  | Some _ => words st
  | None => words st ++ [found_word text language st]
  end.

Definition stored_url (address : string) (st : Store) : option Url :=
  List.find (fun x => String.eqb (url x) address) (urls st).

Definition found_url (address url_title : string) (st : Store) : Url :=
  default (mkUrl (next_id (map url_id (urls st))) address url_title)
          (stored_url address st).

Definition urls_after (address url_title : string) (st : Store) : list Url :=
  match stored_url address st with
  | Some _ => urls st
  | None => urls st ++ [found_url address url_title st]
  end.

(** The language an argument of [lookup] stands for. *)
Definition language_of_arg (a : lang_arg) (st : Store) : option Language :=
  match a with
  | LangObject l => Some l
  | LangCode c => known_language c st
  | LangNone => None
  end.

(** The world a view starts in once the session under [key] is resolved. *)
Definition session_checked (key : Z) (s : Session) (w : World) : World :=
  mkWorld
    (set_sessions (alter (set_last_use (clock w (ticks w))) key) (pending w))
    (committed w) (Some (session_user s)) (clock w) (S (ticks w)).

Fixpoint string_forallb (p : ascii -> bool) (s : string) : bool :=
  match s with
  | EmptyString => true
  | String c rest => p c && string_forallb p rest
  end.

(** A decimal integer literal as [int] reads it: digits, at least one,
    after an optional sign, with white space allowed around the sign and
    after the digits. *)
Definition decimal_integer_literal (v : string) : Prop :=
  exists lead sign gap digits trail : string,
    v = lead +:+ sign +:+ gap +:+ digits +:+ trail
    /\ string_forallb unicode_isspace lead = true
    /\ (sign = EmptyString /\ gap = EmptyString \/ sign = "+" \/ sign = "-")
    /\ string_forallb unicode_isspace gap = true
    /\ digits <> EmptyString
    /\ string_forallb is_digit digits = true
    /\ string_forallb unicode_isspace trail = true.

(** ** A small installation used to run the endpoints *)

Definition english : Language := mkLanguage "en" true.
Definition german : Language := mkLanguage "de" true.

Definition sample_store : Store :=
  mkStore {[ 7 := mkSession 7 1 0 ]}
          {[ 1 := mkUser 1 "alice@example.com" (Some german) (Some english) ]}
          [english; german] [] [] [] [] [] [].

Definition sample_world : World :=
  mkWorld sample_store sample_store None (fun n => 1000 + Z.of_nat n) 0.

Definition sample_request (session : option string)
    (fields : list (string * string)) : Request :=
  mkRequest (match session with
             | Some value => {[ "session" := value ]}
             | None => ∅
             end)
            (list_to_map fields).

(** A provider that answers with the word tagged by the target language. *)
Definition sample_provider (w target source : string) : M string :=
  ret (w +:+ "@" +:+ target).

(** The search that [Search_query_first] selects in a store. *)
Definition latest_search (user : Z) (w : Word) (language : Language)
    (st : Store) : option Search :=
  head (order_by_id_desc
          (List.filter (search_matches user w language) (searches st))).

(** The sample world once the session 7 of user 1 has been checked. *)
Definition sample_world_in_session : World :=
  Eval vm_compute in session_checked 7 (mkSession 7 1 0) sample_world.

(** ** The answer of [contributions_by_day], entry by entry *)

Definition contribution_json (with_context : bool) (c : Contribution) : json :=
  JObj ([("id", JNum (contribution_id c));
         ("from", JStr (word (origin c)));
         ("to", JStr (word (translation c)));
         ("title", JStr (from_option title EmptyString (text_url (contribution_text c))));
         ("url", JStr (from_option url EmptyString (text_url (contribution_text c))))]
        ++ (if with_context
            then [("context", JStr (content (contribution_text c)))]
            else [])).

(** The contributions of a user whose text is dated on day [d], in
    creation order. *)
Definition contributions_of_day (Text_time : Text -> Z) (user : Z)
    (st : Store) (d : Z) : list Contribution :=
  List.filter (fun c => (views.contribution_date Text_time c =? d)%Z)
              (views.all_contributions user st).

Definition day_json (strftime : Z -> string) (Text_time : Text -> Z)
    (with_context : bool) (user : Z) (st : Store) (d : Z) : json :=
  JObj [("date", JStr (strftime d));
        ("contribs",
         JList (map (contribution_json with_context)
                    (contributions_of_day Text_time user st d)))].

(** A text is dated at midday of the day numbered by its key. *)
Definition sample_text_time (t : Text) : Z :=
  text_id t * microseconds_per_day + 43200000000.

Definition sample_strftime (d : Z) : string :=
  match d with
  | 1 => "Monday, 01 January"
  | 2 => "Tuesday, 02 January"
  | _ => "another day"
  end.

(** The sample world after user 1 has contributed two words. *)
Definition sample_world_with_contributions : World :=
  Eval vm_compute in
  snd (views.contribute_with_context "en" "cat" "de" "Katze"
         (sample_request (Some "7")
            [("url", "http://y"); ("context", "The cat sat"); ("title", "Y")])
         (snd (views.contribute_with_context "en" "ice+cream" "de" "Eis"
                 (sample_request (Some "7")
                    [("url", "http://x"); ("context", "We had ice cream.")])
                 sample_world_in_session))).

(** Every stored contribution has a text that names its url. *)
Definition contributions_have_urls (st : Store) : Prop :=
  forall c, c ∈ contributions st -> is_Some (text_url (contribution_text c)).

From Stdlib Require DecimalString DecimalPos.

(** ** Further notions used in the statements *)

(** The name of the cross-origin header. *)
Definition cors_header : string := "Access-Control-Allow-Origin".

(** Whether a string holds the character [c]. *)
Fixpoint string_mem (c : ascii) (s : string) : bool :=
  match s with
  | EmptyString => false
  | String x rest => Ascii.eqb x c || string_mem c rest
  end.

(** A search row without its link to a contribution. *)
Definition without_contribution (s : Search) : Search :=
  mkSearch (search_id s) (search_user s) (search_word s) (search_language s)
           (search_text s) None.

(** The keys of each table that grows by key are pairwise distinct. *)
Definition keys_unique (st : Store) : Prop :=
  NoDup (map word_id (words st))
  /\ NoDup (map url_id (urls st))
  /\ NoDup (map text_id (texts st))
  /\ NoDup (map search_id (searches st))
  /\ NoDup (map contribution_id (contributions st)).

(** ** The remaining views of a signed-in user, and the sign-in *)

(** [str(n)] on an integer: the decimal digits, after ['-'] when negative. *)
Definition python_str (n : Z) : string :=
  DecimalString.NilZero.string_of_int (Z.to_int n).

(** [flask.g.user] as the row of the user; the attribute access fails when
    the session names no stored user. *)
Definition get_g_user_row : M User :=
  let* user := get_g_user in
  let* st := get_store in
  match users st !! user with
  | Some u => ret u
  | None => raise AttributeError
  end.

(** The columns [learned_language_id] and [native_language_id]. *)
Definition learned_language_id (u : User) : option string :=
  language_id <$> learned_language u.

Definition native_language_id (u : User) : option string :=
  language_id <$> native_language u.

(** A string or [None] as the result of a view, and as a JSON value. *)
Definition rv_of_option (o : option string) : view_result :=
  match o with
  | Some s => RvStr s
  | None => RvNone
  end.

Definition json_of_option (o : option string) : json :=
  match o with
  | Some s => JStr s
  | None => JNull
  end.

(** [zeeguu.db.session.add(session)] followed by the commit of the row: a
    key already in use is an integrity error of the store, which no
    handler on this path catches and which the framework answers with
    500. *)
Definition db_session_add_session (s : Session) : M unit :=
  let* st := get_store in
  match sessions st !! session_id s with
  | Some _ => raise (HTTPException 500)
  | None => modify_store (set_sessions (insert (session_id s) s))
  end.

Module views_user.
Section Accounts.

(** [model.User.authorize(email, password)] and [model.Session.for_user]
    are not among the sources: the first reads the store and gives the
    user or [None], the second reads the store and gives a session row
    for the user. *)
Variable User_authorize : string -> string -> Store -> option User.
Variable Session_for_user : User -> Store -> Session.

Definition learned_language : View := fun _ =>
  let* u := get_g_user_row in
  ret (rv_of_option (learned_language_id u)).

Definition native_language : View := fun _ =>
  let* u := get_g_user_row in
  ret (rv_of_option (native_language_id u)).

Definition learned_and_native_language : View := fun _ =>
  let* u := get_g_user_row in
  let res := [("native", json_of_option (native_language_id u));
              ("learned", json_of_option (learned_language_id u))] in
  ret (RvResponse (json_response (JObj res))).

Definition get_session (email : string) : View := fun req =>
  match form req !! "password" with
  | None => flask_abort 400
  | Some password =>
      let* st := get_store in
      match User_authorize email password st with
      | None => flask_abort 401
      | Some user =>
          let session := Session_for_user user st in
          run db_session_add_session session in
          run db_session_commit in
          ret (RvStr (python_str (session_id session)))
      end
  end.

End Accounts.
End views_user.

Module api_user.
Section Routes.

Variable User_authorize : string -> string -> Store -> option User.
Variable Session_for_user : User -> Store -> Session.

Definition learned_language : View :=
  cross_domain (with_session views_user.learned_language).

Definition native_language : View :=
  cross_domain (with_session views_user.native_language).

Definition learned_and_native_language : View :=
  cross_domain (with_session views_user.learned_and_native_language).

Definition get_session (email : string) : View :=
  cross_domain (views_user.get_session User_authorize Session_for_user email).

End Routes.
End api_user.

(** A sign-in for the sample installation: one password for every stored
    user, and the key after the largest session key in use. *)
Definition sample_authorize (user_email password : string) (st : Store)
  : option User :=
  if String.eqb password "pw123"
  then List.find (fun u => String.eqb (email u) user_email)
                 (snd <$> map_to_list (users st))
  else None.

Definition sample_for_user (u : User) (st : Store) : Session :=
  mkSession (next_id (fst <$> map_to_list (sessions st))) (user_id u) 0.

(** The number that a row of decimal digits denotes, read left to right
    from an accumulator. *)
Fixpoint uint_value (acc : Z) (d : Decimal.uint) : Z :=
  match d with
  | Decimal.Nil => acc
  | Decimal.D0 d => uint_value (10 * acc) d
  | Decimal.D1 d => uint_value (10 * acc + 1) d
  | Decimal.D2 d => uint_value (10 * acc + 2) d
  | Decimal.D3 d => uint_value (10 * acc + 3) d
  | Decimal.D4 d => uint_value (10 * acc + 4) d
  | Decimal.D5 d => uint_value (10 * acc + 5) d
  | Decimal.D6 d => uint_value (10 * acc + 6) d
  | Decimal.D7 d => uint_value (10 * acc + 7) d
  | Decimal.D8 d => uint_value (10 * acc + 8) d
  | Decimal.D9 d => uint_value (10 * acc + 9) d
  end.

(** A view that leaves the world as it finds it, whatever it answers. *)
Definition reads_only (view : View) : Prop :=
  forall req w, snd (view req w) = w.

(** What serving a request may do to the world when only the session check
    writes: nothing, or one stamp on the resolved session. *)
Definition at_most_stamped (w w' : World) : Prop :=
  w' = w
  \/ exists key s, sessions (pending w) !! key = Some s
                   /\ w' = session_checked key s w.

(** ** Registration *)

Definition set_users (f : gmap Z User -> gmap Z User) (st : Store) : Store :=
  mkStore (sessions st) (f (users st)) (languages st) (words st) (urls st)
          (texts st) (searches st) (contributions st) (readings st).

Definition set_user_id (key : Z) (u : User) : User :=
  mkUser key (email u) (learned_language u) (native_language u).

(** The key that the store gives to the next user. *)
Definition next_user_id (st : Store) : Z :=
  next_id (fst <$> map_to_list (users st)).

(** The store as [add_user] commits it for a new user. *)
Definition with_new_user (u : User) (st : Store) : Store :=
  set_users (insert (next_user_id st) (set_user_id (next_user_id st) u)) st.

Module views_register.
Section Registration.

(** The constructor [model.User(email, password)] and the constraints of
    the user table are not among the sources: the constructor gives the
    row or raises [ValueError] ([None] here), and the store refuses a
    conflicting row at the commit with an integrity error. *)
Variable User_new : string -> string -> option User.
Variable User_conflicts : User -> Store -> bool.
Variable User_authorize : string -> string -> Store -> option User.
Variable Session_for_user : User -> Store -> Session.

(** [add_user]: both exceptions of the [try] block end in [abort(400)];
    the result is that of the decorated [get_session]. *)
Definition add_user (email : string) : View := fun req =>
  match form req !! "password" with
  | None => flask_abort 400
  | Some password =>
      match User_new email password with
      | None => flask_abort 400
      | Some u =>
          let* st := get_store in
          if User_conflicts u st then flask_abort 400
          else
            run modify_store (with_new_user u) in
            run db_session_commit in
            api_user.get_session User_authorize Session_for_user email req
      end
  end.

End Registration.
End views_register.

Module api_register.
Section Routes.

Variable User_new : string -> string -> option User.
Variable User_conflicts : User -> Store -> bool.
Variable User_authorize : string -> string -> Store -> option User.
Variable Session_for_user : User -> Store -> Session.

Definition add_user (email : string) : View :=
  cross_domain
    (views_register.add_user User_new User_conflicts User_authorize
       Session_for_user email).

End Routes.
End api_register.

(** A registration for the sample installation: addresses need an ['@'],
    and an address can be registered once. *)
Definition sample_user_new (user_email password : string) : option User :=
  if string_mem "@" user_email then Some (mkUser 0 user_email None None)
  else None.

Definition sample_user_conflicts (u : User) (st : Store) : bool :=
  existsb (fun x => String.eqb (email x) (email u))
          (snd <$> map_to_list (users st)).

(** The sample world after user 1 has looked up "cat" from English to
    German. *)
Definition sample_world_after_lookup : World :=
  Eval vm_compute in
  snd (views.lookup "en" "cat" (LangCode "de")
         (sample_request (Some "7") []) sample_world_in_session).

(** * Properties *)

Local Arguments String.append !s1 s2 : simpl nomatch.

(** ** Reading integers *)

Example python_int_plain : python_int "123141516" = Some 123141516.
Proof. reflexivity. Qed.

Example python_int_padded : python_int " -042 " = Some (-42).
Proof. reflexivity. Qed.

Example python_int_opaque : python_int "3f9a-token" = None.
Proof. reflexivity. Qed.

Example python_int_empty : python_int EmptyString = None.
Proof. reflexivity. Qed.

(** ** Words in path segments *)

Lemma decode_word_length (s : string) :
  String.length (decode_word s) = String.length s.
Proof.
  unfold decode_word. induction s as [|c s IH]; simpl; [reflexivity|].
  now rewrite IH.
Qed.

Lemma decode_word_get (s : string) (i : nat) :
  String.get i (decode_word s) = decode_char <$> String.get i s.
Proof.
  unfold decode_word. revert i.
  induction s as [|c s IH]; intros i; simpl; [reflexivity|].
  destruct i as [|i]; simpl; [reflexivity | apply IH].
Qed.

Lemma decode_word_idempotent (s : string) :
  decode_word (decode_word s) = decode_word s.
Proof.
  unfold decode_word. induction s as [|c s IH]; simpl; [reflexivity|].
  rewrite IH. f_equal.
  destruct (Ascii.eqb c "+") eqn:E; [reflexivity|]. now rewrite E.
Qed.

Example decode_word_ice_cream : decode_word "ice+cream+" = "ice cream ".
Proof. reflexivity. Qed.

(** ** The session check *)

Lemma with_session_unresolved (view : View) (req : Request) (w : World) :
  resolve_session req w = None ->
  with_session view req w = (Raises (HTTPException 401), w).
Proof.
  unfold resolve_session, with_session. intros H.
  destruct (args req !! "session") as [value|]; simpl in *; [|reflexivity].
  destruct (python_int value) as [key|]; simpl in *; [|reflexivity].
  unfold bind, Session_query_get, get_store, ret; simpl.
  now rewrite H.
Qed.

Lemma with_session_resolved (view : View) (req : Request) (w : World)
    (value : string) (key : Z) (s : Session) :
  args req !! "session" = Some value ->
  python_int value = Some key ->
  sessions (pending w) !! key = Some s ->
  with_session view req w = view req (session_checked key s w).
Proof.
  intros Ha Hi Hs. unfold with_session. rewrite Ha, Hi.
  unfold bind, Session_query_get, get_store, ret; simpl.
  now rewrite Hs.
Qed.

(** C2: a request to a guarded endpoint without a session parameter, or
    with one that resolves to no stored session, is answered with 401;
    the view is not run and the world is left as it was. *)
Theorem with_session_fails_closed (view : View) (req : Request) (w : World) :
  args req !! "session" = None \/ resolve_session req w = None ->
  with_session view req w = (Raises (HTTPException 401), w)
  /\ (forall other : View, with_session other req w = with_session view req w)
  /\ status (fst (flask_dispatch (cross_domain (with_session view)) req w)) = 401
  /\ snd (flask_dispatch (cross_domain (with_session view)) req w) = w.
Proof.
  intros H.
  assert (Hr : resolve_session req w = None).
  { destruct H as [H|H]; [|exact H]. unfold resolve_session. now rewrite H. }
  assert (Hv : forall v : View,
             with_session v req w = (Raises (HTTPException 401), w))
    by (intros v; now apply with_session_unresolved).
  split; [apply Hv|]. split; [intros other; now rewrite !Hv|].
  unfold flask_dispatch, cross_domain, bind. now rewrite Hv.
Qed.

(** ** [int] accepts exactly the decimal integer literals *)

Lemma string_app_assoc (a b c : string) : (a +:+ b) +:+ c = a +:+ (b +:+ c).
Proof. induction a as [|x a IH]; simpl; [reflexivity | now rewrite IH]. Qed.

Lemma skip_space_split (s : string) :
  exists ws, s = ws +:+ skip_space s /\ string_forallb unicode_isspace ws = true.
Proof.
  induction s as [|c s [ws [E F]]]; simpl.
  - exists EmptyString. now split.
  - destruct (unicode_isspace c) eqn:Hc.
    + exists (String c ws). simpl. rewrite Hc, F. split; [now rewrite <- E | reflexivity].
    + exists EmptyString. now split.
Qed.

Lemma skip_space_app (ws r : string) :
  string_forallb unicode_isspace ws = true -> skip_space (ws +:+ r) = skip_space r.
Proof.
  induction ws as [|c ws IH]; simpl; [reflexivity|].
  intros H. apply andb_true_iff in H as [Hc H]. rewrite Hc. now apply IH.
Qed.

Lemma skip_space_all (ws : string) :
  string_forallb unicode_isspace ws = true -> skip_space ws = EmptyString.
Proof.
  induction ws as [|c ws IH]; simpl; [reflexivity|].
  intros H. apply andb_true_iff in H as [Hc H]. rewrite Hc. now apply IH.
Qed.

Lemma skip_space_stop (c : ascii) (r : string) :
  unicode_isspace c = false -> skip_space (String c r) = String c r.
Proof. intros H. simpl. now rewrite H. Qed.

Lemma skip_space_empty (s : string) :
  skip_space s = EmptyString -> string_forallb unicode_isspace s = true.
Proof.
  induction s as [|c s IH]; simpl; [reflexivity|].
  destruct (unicode_isspace c); [exact IH | discriminate].
Qed.

Lemma digit_not_space (c : ascii) : is_digit c = true -> unicode_isspace c = false.
Proof.
  destruct c as [[] [] [] [] [] [] [] []]; vm_compute; congruence.
Qed.

Lemma sign_not_space_digit (c : ascii) :
  c = "+"%char \/ c = "-"%char -> unicode_isspace c = false /\ is_digit c = false.
Proof. intros [->| ->]; split; reflexivity. Qed.

Lemma read_digits_sound (s : string) (acc z : Z) :
  read_digits acc s = Some z ->
  exists ds ws, s = ds +:+ ws
    /\ string_forallb is_digit ds = true
    /\ string_forallb unicode_isspace ws = true.
Proof.
  revert acc. induction s as [|c s IH]; intros acc; simpl.
  - intros _. exists EmptyString, EmptyString. now repeat split.
  - destruct (is_digit c) eqn:Hd.
    + intros H. destruct (IH _ H) as (ds & ws & E & Fd & Fw).
      exists (String c ds), ws. simpl. rewrite Hd, Fd, <- E. now repeat split.
    + destruct (unicode_isspace c) eqn:Hc; [|discriminate].
      destruct (skip_space s) eqn:Hs; [|discriminate].
      intros _. exists EmptyString, (String c s). simpl. rewrite Hc.
      repeat split. now apply skip_space_empty.
Qed.

Lemma read_digits_complete (ds ws : string) (acc : Z) :
  string_forallb is_digit ds = true ->
  string_forallb unicode_isspace ws = true ->
  is_Some (read_digits acc (ds +:+ ws)).
Proof.
  revert acc. induction ds as [|c ds IH]; intros acc Hd Hw; simpl in *.
  - destruct ws as [|c ws]; simpl; [eauto|].
    simpl in Hw. apply andb_true_iff in Hw as [Hc Hw].
    destruct (is_digit c) eqn:Hdc.
    + apply digit_not_space in Hdc. congruence.
    + rewrite Hc, (skip_space_all _ Hw). eauto.
  - apply andb_true_iff in Hd as [Hc Hd]. rewrite Hc. now apply IH.
Qed.

Lemma read_unsigned_sound (s : string) (z : Z) :
  read_unsigned s = Some z ->
  exists gap ds ws, s = gap +:+ ds +:+ ws
    /\ string_forallb unicode_isspace gap = true
    /\ ds <> EmptyString
    /\ string_forallb is_digit ds = true
    /\ string_forallb unicode_isspace ws = true.
Proof.
  unfold read_unsigned. intros H.
  destruct (skip_space_split s) as (gap & E & Fg).
  destruct (skip_space s) as [|c r] eqn:Hs; [discriminate|].
  destruct (is_digit c) eqn:Hd; [|discriminate].
  destruct (read_digits_sound _ _ _ H) as (ds & ws & E' & Fd & Fw).
  exists gap, ds, ws. rewrite <- E'. repeat split; try assumption.
  intros ->. simpl in E'. subst ws. simpl in Fw.
  apply digit_not_space in Hd. rewrite Hd in Fw. discriminate.
Qed.

Lemma read_unsigned_complete (gap ds ws : string) :
  string_forallb unicode_isspace gap = true ->
  ds <> EmptyString ->
  string_forallb is_digit ds = true ->
  string_forallb unicode_isspace ws = true ->
  is_Some (read_unsigned (gap +:+ ds +:+ ws)).
Proof.
  intros Hg Hne Hd Hw. unfold read_unsigned.
  rewrite (skip_space_app _ _ Hg).
  destruct ds as [|c ds]; [congruence|].
  pose proof Hd as Hd'. simpl in Hd'. apply andb_true_iff in Hd' as [Hc _].
  change (String c ds +:+ ws) with (String c (ds +:+ ws)).
  rewrite (skip_space_stop _ _ (digit_not_space _ Hc)), Hc.
  change (String c (ds +:+ ws)) with (String c ds +:+ ws).
  now apply read_digits_complete.
Qed.

Lemma python_int_sound (v : string) (z : Z) :
  python_int v = Some z -> decimal_integer_literal v.
Proof.
  unfold python_int. intros H.
  destruct (skip_space_split v) as (lead & E & Fl).
  assert (Hplain : read_unsigned v = Some z -> decimal_integer_literal v).
  { intros Hu. destruct (read_unsigned_sound _ _ Hu) as (gap & ds & ws & E' & G).
    exists gap, EmptyString, EmptyString, ds, ws. simpl. split; [exact E'|].
    destruct G as (? & ? & ? & ?). repeat split; auto. }
  destruct (skip_space v) as [|c r] eqn:Hs; [now apply Hplain|].
  assert (Hsigned : forall sign y, String c r = sign +:+ r ->
            (sign = "+" \/ sign = "-") ->
            read_unsigned r = Some y -> decimal_integer_literal v).
  { intros sign y Ec Hsign Hu.
    destruct (read_unsigned_sound _ _ Hu) as (gap & ds & ws & E' & G).
    exists lead, sign, gap, ds, ws.
    destruct G as (? & ? & ? & ?). repeat split; auto.
    now rewrite E, Ec, E'. }
  destruct c as [[] [] [] [] [] [] [] []]; try (now apply Hplain).
  - apply (Hsigned "+" z); auto.
  - destruct (read_unsigned r) as [y|] eqn:Hu; [|discriminate].
    apply (Hsigned "-" y); auto.
Qed.

Lemma python_int_complete (v : string) :
  decimal_integer_literal v -> is_Some (python_int v).
Proof.
  intros (lead & sign & gap & ds & ws & E & Fl & Hsign & Fg & Hne & Fd & Fw).
  subst v. unfold python_int. rewrite (skip_space_app _ _ Fl).
  destruct Hsign as [[-> ->] | [-> | ->]]; simpl.
  - destruct ds as [|c ds]; [congruence|].
    pose proof Fd as Fd'. simpl in Fd'. apply andb_true_iff in Fd' as [Hc _].
    change (String c ds +:+ ws) with (String c (ds +:+ ws)).
    rewrite (skip_space_stop _ _ (digit_not_space _ Hc)).
    assert (Hu : is_Some (read_unsigned (lead +:+ String c (ds +:+ ws)))).
    { change (String c (ds +:+ ws)) with (String c ds +:+ ws).
      apply read_unsigned_complete; auto. }
    destruct c as [[] [] [] [] [] [] [] []]; try exact Hu; discriminate Hc.
  - now apply read_unsigned_complete.
  - destruct (read_unsigned_complete gap ds ws Fg Hne Fd Fw) as [y ->].
    simpl. eauto.
Qed.

Lemma python_int_rejects (v : string) :
  ~ decimal_integer_literal v <-> python_int v = None.
Proof.
  split.
  - intros H. destruct (python_int v) as [z|] eqn:E; [|reflexivity].
    exfalso. apply H. now apply (python_int_sound v z).
  - intros H L. apply python_int_complete in L as [z L]. congruence.
Qed.

(** C9: a request to a guarded endpoint whose session parameter is present
    and is not a decimal integer literal is answered with 401, whatever
    the view and the world. *)
Theorem with_session_rejects_non_integer
    (view : View) (req : Request) (w : World) (value : string) :
  args req !! "session" = Some value ->
  ~ decimal_integer_literal value ->
  with_session view req w = (Raises (HTTPException 401), w)
  /\ status (fst (flask_dispatch (cross_domain (with_session view)) req w)) = 401.
Proof.
  intros Ha Hn. apply python_int_rejects in Hn.
  assert (Hr : resolve_session req w = None).
  { unfold resolve_session. rewrite Ha. simpl. now rewrite Hn. }
  split; [now apply with_session_unresolved|].
  unfold flask_dispatch, cross_domain, bind.
  now rewrite (with_session_unresolved _ _ _ Hr).
Qed.

Lemma with_session_rejects_non_integer_witness :
  with_session views.validate
    (sample_request (Some "3f9a-token") []) sample_world
  = (Raises (HTTPException 401), sample_world)
  /\ status (fst (flask_dispatch (cross_domain (with_session views.validate))
                    (sample_request (Some "3f9a-token") []) sample_world)) = 401.
Proof.
  apply (with_session_rejects_non_integer _ _ _ "3f9a-token").
  - reflexivity.
  - apply python_int_rejects. reflexivity.
Defined.

Lemma with_session_fails_closed_witness :
  with_session views.validate (sample_request (Some "8") []) sample_world
  = (Raises (HTTPException 401), sample_world)
  /\ (forall other : View,
        with_session other (sample_request (Some "8") []) sample_world
        = with_session views.validate (sample_request (Some "8") [])
            sample_world)
  /\ status (fst (flask_dispatch (cross_domain (with_session views.validate))
                    (sample_request (Some "8") []) sample_world)) = 401
  /\ snd (flask_dispatch (cross_domain (with_session views.validate))
            (sample_request (Some "8") []) sample_world) = sample_world.
Proof.
  apply (with_session_fails_closed views.validate).
  right. reflexivity.
Defined.

(** C8: when the session parameter resolves to a stored session, the view
    starts in the world where that session's time of last use is the
    current clock reading; the session keeps its key and its user, every
    other session and every other table is as before, nothing is
    committed, and the ambient user slot holds the session's user. *)
Theorem with_session_touches_last_use_only
    (view : View) (req : Request) (w : World) (s : Session) :
  resolve_session req w = Some s ->
  exists (key : Z) (w' : World),
    with_session view req w = view req w'
    /\ sessions (pending w) !! key = Some s
    /\ sessions (pending w') !! key
       = Some (mkSession (session_id s) (session_user s) (clock w (ticks w)))
    /\ (forall k, k <> key ->
          sessions (pending w') !! k = sessions (pending w) !! k)
    /\ users (pending w') = users (pending w)
    /\ languages (pending w') = languages (pending w)
    /\ words (pending w') = words (pending w)
    /\ urls (pending w') = urls (pending w)
    /\ texts (pending w') = texts (pending w)
    /\ searches (pending w') = searches (pending w)
    /\ contributions (pending w') = contributions (pending w)
    /\ readings (pending w') = readings (pending w)
    /\ committed w' = committed w
    /\ clock w' = clock w
    /\ ticks w' = S (ticks w)
    /\ g_user w' = Some (session_user s).
Proof.
  unfold resolve_session. intros H.
  destruct (args req !! "session") as [value|] eqn:Ha; [|discriminate].
  simpl in H.
  destruct (python_int value) as [key|] eqn:Hi; [|discriminate].
  simpl in H.
  exists key, (session_checked key s w).
  split; [now apply (with_session_resolved view req w value)|].
  split; [exact H|].
  split; [simpl; now rewrite lookup_alter_eq, H|].
  split; [intros k Hk; simpl; now rewrite lookup_alter_ne|].
  repeat split.
Qed.

Lemma with_session_touches_last_use_only_witness :
  exists (key : Z) (w' : World),
    with_session views.validate (sample_request (Some "7") []) sample_world
    = views.validate (sample_request (Some "7") []) w'
    /\ sessions (pending sample_world) !! key = Some (mkSession 7 1 0)
    /\ sessions (pending w') !! key = Some (mkSession 7 1 1000)
    /\ (forall k, k <> key ->
          sessions (pending w') !! k = sessions (pending sample_world) !! k)
    /\ users (pending w') = users (pending sample_world)
    /\ languages (pending w') = languages (pending sample_world)
    /\ words (pending w') = words (pending sample_world)
    /\ urls (pending w') = urls (pending sample_world)
    /\ texts (pending w') = texts (pending sample_world)
    /\ searches (pending w') = searches (pending sample_world)
    /\ contributions (pending w') = contributions (pending sample_world)
    /\ readings (pending w') = readings (pending sample_world)
    /\ committed w' = committed sample_world
    /\ clock w' = clock sample_world
    /\ ticks w' = S (ticks sample_world)
    /\ g_user w' = Some 1.
Proof.
  apply (with_session_touches_last_use_only views.validate
           (sample_request (Some "7") []) sample_world (mkSession 7 1 0)).
  reflexivity.
Defined.

(** ** The cross-origin header *)

Lemma cross_domain_returns (view : View) (req : Request) (w w' : World)
    (rv : view_result) (r : Response) :
  view req w = (Returns rv, w') ->
  flask_make_response rv w' = (Returns r, w') ->
  cross_domain view req w
  = (Returns (RvResponse (set_header "Access-Control-Allow-Origin" "*" r)), w').
Proof.
  intros Hv Hr. unfold cross_domain, bind. now rewrite Hv, Hr.
Qed.

Lemma cross_domain_raises (view : View) (req : Request) (w w' : World)
    (e : exn) :
  view req w = (Raises e, w') ->
  cross_domain view req w = (Raises e, w').
Proof. intros Hv. unfold cross_domain, bind. now rewrite Hv. Qed.

Lemma guarded_route_returns (view : View) (req : Request) (w w' : World)
    (s : Session) (key : Z) (value text : string) :
  args req !! "session" = Some value ->
  python_int value = Some key ->
  sessions (pending w) !! key = Some s ->
  view req (session_checked key s w) = (Returns (RvStr text), w') ->
  flask_dispatch (cross_domain (with_session view)) req w
  = (mkResponse 200 {[ "Access-Control-Allow-Origin" := "*" ]} "text/html"
       (BodyText text), w').
Proof.
  intros Ha Hi Hs Hv. unfold flask_dispatch, bind at 1.
  rewrite (cross_domain_returns _ _ _ w' (RvStr text)
             (mkResponse 200 ∅ "text/html" (BodyText text))).
  - reflexivity.
  - now rewrite (with_session_resolved view req w value key s Ha Hi Hs).
  - reflexivity.
Qed.

Lemma guarded_route_abort_lacks_header (view : View) (req : Request)
    (w : World) :
  resolve_session req w = None ->
  flask_dispatch (cross_domain (with_session view)) req w
  = (mkResponse 401 ∅ "text/html" (BodyText EmptyString), w).
Proof.
  intros H. unfold flask_dispatch, bind at 1.
  now rewrite (cross_domain_raises _ _ _ w (HTTPException 401))
    by now apply with_session_unresolved.
Qed.

(** C5, at the request [GET /validate] without a session parameter: the
    answer is the 401 of the abort, and it carries no
    [Access-Control-Allow-Origin] header, in every world. *)
Theorem validate_401_lacks_cors_header (w : World) :
  let r := fst (flask_dispatch api.validate (mkRequest ∅ ∅) w) in
  status r = 401 /\ headers r !! "Access-Control-Allow-Origin" = None.
Proof. split; reflexivity. Qed.

(** ** Translation *)

(** C7: with the [context] and [url] form fields present, whatever they
    hold, translating with context gives what the plain translation gives
    for the same word and languages, as a view and as a route. *)
Theorem translate_with_context_ignores_context
    (provider : string -> string -> string -> M string)
    (w from_lang_code to_lang_code : string)
    (req req' : Request) (world : World) (context address : string) :
  form req !! "context" = Some context ->
  form req !! "url" = Some address ->
  views.translate_from_to_with_context
    provider w from_lang_code to_lang_code req world
  = views.translate_from_to provider w from_lang_code to_lang_code req' world
  /\ api.translate_from_to_with_context
       provider w from_lang_code to_lang_code req world
     = api.translate_from_to provider w from_lang_code to_lang_code req' world.
Proof.
  intros Hc Hu.
  assert (E : views.translate_from_to_with_context
                provider w from_lang_code to_lang_code req world
              = views.translate_from_to
                  provider w from_lang_code to_lang_code req' world).
  { unfold views.translate_from_to_with_context, views.translate_from_to,
      form_getitem, bind. rewrite Hc, Hu. reflexivity. }
  split; [exact E|].
  unfold api.translate_from_to_with_context, api.translate_from_to,
    cross_domain, bind. now rewrite E.
Qed.

Lemma translate_with_context_ignores_context_witness :
  views.translate_from_to_with_context sample_provider "Haus" "de" "en"
    (sample_request None [("context", "Das Haus ist alt"); ("url", "http://x")])
    sample_world
  = views.translate_from_to sample_provider "Haus" "de" "en"
      (sample_request None []) sample_world
  /\ api.translate_from_to_with_context sample_provider "Haus" "de" "en"
       (sample_request None
          [("context", "Das Haus ist alt"); ("url", "http://x")])
       sample_world
     = api.translate_from_to sample_provider "Haus" "de" "en"
         (sample_request None []) sample_world.
Proof.
  apply (translate_with_context_ignores_context sample_provider
           "Haus" "de" "en" _ _ _ "Das Haus ist alt" "http://x");
    reflexivity.
Defined.

(** C10: the legacy route asks the provider for English, whatever the word
    and the source language: it is the general translation with the target
    fixed to ["en"]. *)
Theorem translate_targets_english
    (provider : string -> string -> string -> M string)
    (w from_lang_code : string) (req : Request) (world : World) :
  views.translate provider w from_lang_code req world
  = bind (provider w "en" from_lang_code) (fun text => ret (RvStr text)) world
  /\ views.translate provider w from_lang_code
     = views.translate_from_to provider w from_lang_code "en"
  /\ api.translate provider w from_lang_code
     = api.translate_from_to provider w from_lang_code "en".
Proof. repeat split. Qed.

(** ** The vocabulary store *)

Lemma next_id_above (ids : list Z) (x : Z) : x ∈ ids -> x < next_id ids.
Proof.
  unfold next_id. induction ids as [|y ids IH]; intros H.
  - inversion H.
  - simpl. apply elem_of_cons in H as [->|H]; [lia|].
    specialize (IH H). lia.
Qed.

Lemma next_id_fresh (ids : list Z) : next_id ids ∉ ids.
Proof. intros H. apply next_id_above in H. lia. Qed.

Lemma Language_find_known (code : string) (l : Language) (w : World) :
  known_language code (pending w) = Some l ->
  Language_find (LangCode code) w = (Returns l, w).
Proof.
  intros H. unfold Language_find, bind, get_store. simpl. now rewrite H.
Qed.

Lemma Language_find_unknown (code : string) (w : World) :
  known_language code (pending w) = None ->
  Language_find (LangCode code) w = (Raises NotFound, w).
Proof.
  intros H. unfold Language_find, bind, get_store. simpl. now rewrite H.
Qed.

Lemma Word_find_run (text : string) (language : Language) (w : World) :
  Word_find text language w
  = (Returns (found_word text language (pending w)),
     set_pending (set_words (fun _ => words_after text language (pending w))) w).
Proof.
  unfold Word_find, found_word, words_after, stored_word, found_word,
    stored_word, bind, get_store, modify_store, ret.
  destruct w as [[] ? ? ? ?]; simpl.
  destruct (List.find _ _); reflexivity.
Qed.

Lemma Url_find_run (address url_title : string) (w : World) :
  Url_find address url_title w
  = (Returns (found_url address url_title (pending w)),
     set_pending
       (set_urls (fun _ => urls_after address url_title (pending w))) w).
Proof.
  unfold Url_find, found_url, urls_after, stored_url, found_url, stored_url,
    bind, get_store, modify_store, ret.
  destruct w as [[] ? ? ? ?]; simpl.
  destruct (List.find _ _); reflexivity.
Qed.

Lemma found_word_text (text : string) (language : Language) (st : Store) :
  word (found_word text language st) = text
  /\ language_id (word_language (found_word text language st))
     = language_id language.
Proof.
  unfold found_word, stored_word.
  destruct (List.find _ _) as [x|] eqn:E; simpl; [|now split].
  apply find_some in E as [_ E]. apply andb_true_iff in E as [E1 E2].
  apply String.eqb_eq in E1. apply String.eqb_eq in E2. now split.
Qed.

Lemma found_word_stored (text : string) (language : Language) (st : Store) :
  found_word text language st ∈ words_after text language st.
Proof.
  unfold words_after, found_word.
  destruct (stored_word text language st) as [x|] eqn:E; simpl.
  - apply find_some in E as [E _]. now apply list_elem_of_In.
  - apply elem_of_app. right. now apply list_elem_of_singleton.
Qed.

Lemma words_after_keeps (text : string) (language : Language) (st : Store)
    (x : Word) :
  x ∈ words st -> x ∈ words_after text language st.
Proof.
  unfold words_after. destruct (stored_word _ _ _); [auto|].
  intros H. apply elem_of_app. now left.
Qed.

Lemma found_url_address (address url_title : string) (st : Store) :
  url (found_url address url_title st) = address.
Proof.
  unfold found_url, stored_url.
  destruct (List.find _ _) as [x|] eqn:E; simpl; [|reflexivity].
  apply find_some in E as [_ E]. now apply String.eqb_eq in E.
Qed.

(** ** The most recent search *)

Lemma head_insert_by_id_desc (s : Search) (l : list Search) :
  head (insert_by_id_desc s l)
  = match head l with
    | None => Some s
    | Some x => if (search_id x <? search_id s)%Z then Some s else Some x
    end.
Proof.
  destruct l as [|x l]; simpl; [reflexivity|].
  destruct (search_id x <? search_id s)%Z; reflexivity.
Qed.

Lemma head_order_by_id_desc_None (l : list Search) :
  head (order_by_id_desc l) = None -> l = [].
Proof.
  destruct l as [|s l]; [reflexivity|]. simpl.
  rewrite head_insert_by_id_desc.
  destruct (head (order_by_id_desc l)) as [x|]; [|discriminate].
  destruct (search_id x <? search_id s)%Z; discriminate.
Qed.

Lemma head_order_by_id_desc_Some (l : list Search) (s : Search) :
  head (order_by_id_desc l) = Some s ->
  s ∈ l /\ forall x, x ∈ l -> search_id x <= search_id s.
Proof.
  revert s. induction l as [|y l IH]; intros s; simpl; [discriminate|].
  rewrite head_insert_by_id_desc.
  destruct (head (order_by_id_desc l)) as [m|] eqn:Hm.
  - destruct (IH m eq_refl) as [Hin Hmax].
    destruct (search_id m <? search_id y)%Z eqn:Hlt; intros [= <-].
    + apply Z.ltb_lt in Hlt. split; [apply elem_of_cons; now left|].
      intros x Hx. apply elem_of_cons in Hx as [->|Hx]; [lia|].
      specialize (Hmax x Hx). lia.
    + apply Z.ltb_ge in Hlt. split; [apply elem_of_cons; now right|].
      intros x Hx. apply elem_of_cons in Hx as [->|Hx]; [lia|].
      now apply Hmax.
  - apply head_order_by_id_desc_None in Hm. subst l. intros [= <-].
    split; [apply elem_of_cons; now left|].
    intros x Hx. apply list_elem_of_singleton in Hx as ->. lia.
Qed.

Lemma latest_search_Some (user : Z) (w : Word) (language : Language)
    (st : Store) (s : Search) :
  latest_search user w language st = Some s ->
  s ∈ searches st
  /\ search_matches user w language s = true
  /\ forall x, x ∈ searches st -> search_matches user w language x = true ->
               search_id x <= search_id s.
Proof.
  unfold latest_search. intros H.
  apply head_order_by_id_desc_Some in H as [Hin Hmax].
  apply list_elem_of_In, filter_In in Hin as [Hin Hm].
  split; [now apply list_elem_of_In|]. split; [exact Hm|].
  intros x Hx Hxm. apply Hmax, list_elem_of_In, filter_In.
  split; [now apply list_elem_of_In | exact Hxm].
Qed.

Lemma latest_search_None (user : Z) (w : Word) (language : Language)
    (st : Store) :
  latest_search user w language st = None ->
  forall x, x ∈ searches st -> search_matches user w language x = false.
Proof.
  unfold latest_search. intros H x Hx.
  apply head_order_by_id_desc_None in H.
  destruct (search_matches user w language x) eqn:Hm; [|reflexivity].
  assert (Hin : In x (List.filter (search_matches user w language) (searches st))).
  { apply filter_In. split; [now apply list_elem_of_In | exact Hm]. }
  rewrite H in Hin. destruct Hin.
Qed.

(** ** Recording a contribution *)

Lemma contribute_with_context_run
    (from_lang_code term to_lang_code tr : string) (req : Request) (w : World)
    (user : Z) (address context : string) (from_lang to_lang : Language) :
  g_user w = Some user ->
  form req !! "url" = Some address ->
  form req !! "context" = Some context ->
  known_language from_lang_code (pending w) = Some from_lang ->
  known_language to_lang_code (pending w) = Some to_lang ->
  let st := pending w in
  let u := found_url address (default EmptyString (form req !! "title")) st in
  let o := found_word (decode_word term) from_lang st in
  let st1 := set_words (fun _ => words_after (decode_word term) from_lang st) st in
  let t := found_word (decode_word tr) to_lang st1 in
  let text := mkText (next_id (map text_id (texts st))) context from_lang (Some u) in
  let c := mkContribution (next_id (map contribution_id (contributions st)))
                          o t user text (clock w (ticks w)) in
  let st' :=
    mkStore (sessions st) (users st) (languages st)
            (words_after (decode_word tr) to_lang st1)
            (urls_after address (default EmptyString (form req !! "title")) st)
            (texts st ++ [text])
            (match latest_search user o to_lang st with
             | Some s => attach_contribution (search_id s) c (searches st)
             | None => searches st
             end)
            (contributions st ++ [c])
            (readings st) in
  views.contribute_with_context from_lang_code term to_lang_code tr req w
  = (Returns (RvStr "OK"), mkWorld st' st' (g_user w) (clock w) (S (ticks w))).
Proof.
  intros Hg Hu Hc Hf Ht. unfold views.contribute_with_context, form_getitem.
  rewrite Hu, Hc. unfold bind at 1 2. simpl.
  unfold bind at 1. rewrite Url_find_run.
  unfold bind at 1. rewrite (Language_find_known _ from_lang) by exact Hf.
  unfold bind at 1. rewrite (Language_find_known _ to_lang) by exact Ht.
  unfold bind at 1. rewrite Word_find_run.
  unfold bind at 1. rewrite Word_find_run.
  unfold latest_search.
  destruct w as [st cm gu ck tk]. destruct st. simpl in *. subst gu.
  unfold bind, get_g_user, Search_query_first, get_store, ret, Text_new,
    modify_store, datetime_now, Contribution_new, Search_set_contribution,
    db_session_add, db_session_commit, set_pending; simpl.
  destruct (head _); reflexivity.
Qed.

Lemma attach_contribution_spec (key : Z) (c : Contribution) (l : list Search) :
  length (attach_contribution key c l) = length l
  /\ forall i s, l !! i = Some s ->
       attach_contribution key c l !! i
       = Some (if (search_id s =? key)%Z
               then mkSearch (search_id s) (search_user s) (search_word s)
                             (search_language s) (search_text s) (Some c)
               else s).
Proof.
  unfold attach_contribution. split; [apply length_map|].
  intros i s H. rewrite list_lookup_fmap, H. reflexivity.
Qed.

(** C1, for requests that carry the [url] and [context] form fields and
    name recognised languages: the view answers "OK"; a contribution made
    of the decoded origin word, the decoded translation word, the user, a
    text that was not stored before and the clock reading is added and
    committed; when the user has searches for that word and target
    language it is linked to the one with the largest key, whatever that
    search was linked to, and otherwise no search changes. *)
Theorem contribute_with_context_attaches_or_stands_alone
    (from_lang_code term to_lang_code tr : string) (req : Request) (w : World)
    (user : Z) (address context : string) (from_lang to_lang : Language) :
  g_user w = Some user ->
  form req !! "url" = Some address ->
  form req !! "context" = Some context ->
  known_language from_lang_code (pending w) = Some from_lang ->
  known_language to_lang_code (pending w) = Some to_lang ->
  exists (w' : World) (c : Contribution),
    views.contribute_with_context from_lang_code term to_lang_code tr req w
    = (Returns (RvStr "OK"), w')
    /\ committed w' = pending w'
    /\ contributions (pending w') = contributions (pending w) ++ [c]
    /\ (contribution_id c ∉ map contribution_id (contributions (pending w)))
    /\ word (origin c) = decode_word term
    /\ language_id (word_language (origin c)) = language_id from_lang
    /\ origin c ∈ words (pending w')
    /\ word (translation c) = decode_word tr
    /\ language_id (word_language (translation c)) = language_id to_lang
    /\ translation c ∈ words (pending w')
    /\ contribution_user c = user
    /\ contribution_time c = clock w (ticks w)
    /\ content (contribution_text c) = context
    /\ text_language (contribution_text c) = from_lang
    /\ (exists u, text_url (contribution_text c) = Some u
                  /\ url u = address /\ u ∈ urls (pending w'))
    /\ (text_id (contribution_text c) ∉ map text_id (texts (pending w)))
    /\ texts (pending w') = texts (pending w) ++ [contribution_text c]
    /\ ((exists s,
           s ∈ searches (pending w)
           /\ search_matches user (origin c) to_lang s = true
           /\ (forall x, x ∈ searches (pending w) ->
                 search_matches user (origin c) to_lang x = true ->
                 search_id x <= search_id s)
           /\ searches (pending w')
              = attach_contribution (search_id s) c (searches (pending w)))
        \/ ((forall x, x ∈ searches (pending w) ->
               search_matches user (origin c) to_lang x = false)
            /\ searches (pending w') = searches (pending w))).
Proof.
  intros Hg Hu Hc Hf Ht.
  pose proof (contribute_with_context_run from_lang_code term to_lang_code tr
                req w user address context from_lang to_lang Hg Hu Hc Hf Ht)
    as Hrun.
  cbv zeta in Hrun.
  set (st := pending w) in *.
  set (title := default EmptyString (form req !! "title")) in *.
  set (st1 := set_words (fun _ => words_after (decode_word term) from_lang st) st) in *.
  set (o := found_word (decode_word term) from_lang st) in *.
  set (t := found_word (decode_word tr) to_lang st1) in *.
  set (u := found_url address title st) in *.
  set (text := mkText _ context from_lang (Some u)) in *.
  set (c := mkContribution _ o t user text _) in *.
  eexists _, c. split; [exact Hrun|]. simpl.
  split; [reflexivity|]. split; [reflexivity|].
  split; [apply next_id_fresh|].
  destruct (found_word_text (decode_word term) from_lang st) as [Ho1 Ho2].
  destruct (found_word_text (decode_word tr) to_lang st1) as [Ht1 Ht2].
  split; [exact Ho1|]. split; [exact Ho2|].
  split.
  { apply (words_after_keeps (decode_word tr) to_lang st1).
    apply (found_word_stored (decode_word term) from_lang st). }
  split; [exact Ht1|]. split; [exact Ht2|].
  split; [apply (found_word_stored (decode_word tr) to_lang st1)|].
  split; [reflexivity|]. split; [reflexivity|].
  split; [reflexivity|]. split; [reflexivity|].
  split.
  { exists u. split; [reflexivity|]. split; [apply found_url_address|].
    unfold urls_after, u, found_url.
    destruct (stored_url address st) as [x|] eqn:E; simpl.
    - apply find_some in E as [E _]. now apply list_elem_of_In.
    - apply elem_of_app. right. now apply list_elem_of_singleton. }
  split; [apply next_id_fresh|]. split; [reflexivity|].
  destruct (latest_search user o to_lang st) as [s|] eqn:Hl.
  - left. exists s. apply latest_search_Some in Hl as (H1 & H2 & H3).
    repeat split; assumption.
  - right. split; [|reflexivity]. now apply latest_search_None.
Qed.

(** ** Logging a lookup *)

Lemma lookup_run (from_lang term : string) (to_lang : lang_arg)
    (req : Request) (w : World) (user : Z) (fl tl : Language) :
  g_user w = Some user ->
  known_language from_lang (pending w) = Some fl ->
  language_of_arg to_lang (pending w) = Some tl ->
  let st := pending w in
  let text := (fun c => mkText (next_id (map text_id (texts st))) c fl None)
                <$> form req !! "text" in
  let s := mkSearch (next_id (map search_id (searches st))) user
                    (found_word (decode_word term) fl st) tl text None in
  let st' :=
    mkStore (sessions st) (users st) (languages st)
            (words_after (decode_word term) fl st)
            (urls st)
            (texts st ++ option_list text)
            (searches st ++ [s])
            (contributions st)
            (readings st ++ option_list ((fun t => (user, t)) <$> text)) in
  views.lookup from_lang term to_lang req w
  = (Returns (RvStr "OK"), mkWorld st' st' (g_user w) (clock w) (ticks w)).
Proof.
  intros Hg Hf Ht. unfold views.lookup.
  unfold bind at 1. rewrite (Language_find_known _ fl) by exact Hf.
  assert (Hto : (match to_lang with
                 | LangObject l => ret l
                 | _ => Language_find to_lang
                 end) w = (Returns tl, w)).
  { destruct to_lang as [code|l|]; simpl in Ht.
    - now apply Language_find_known.
    - now injection Ht as ->.
    - discriminate. }
  unfold bind at 1. rewrite Hto.
  destruct w as [st cm gu ck tk]. destruct st. simpl in *. subst gu.
  cbv [bind get_g_user get_store ret Text_find Text_new User_read Word_find
       Search_new user_searches_append modify_store db_session_commit
       set_pending found_word words_after stored_word]; simpl.
  destruct (form req !! "text") as [text_content|]; simpl;
    destruct (List.find _ _); simpl; rewrite ?app_nil_r; reflexivity.
Qed.

(** C3, for lookups that name recognised languages: the view answers "OK"
    and commits; the search table grows by exactly one row with a new key,
    whatever rows it held, for the user, the target language and the
    vocabulary word of the decoded term; the search carries a text, new
    in the text table, when the [text] form field is supplied, and no
    text otherwise. *)
Theorem lookup_appends_search
    (from_lang term : string) (to_lang : lang_arg) (req : Request) (w : World)
    (user : Z) (fl tl : Language) :
  g_user w = Some user ->
  known_language from_lang (pending w) = Some fl ->
  language_of_arg to_lang (pending w) = Some tl ->
  exists (w' : World) (s : Search),
    views.lookup from_lang term to_lang req w = (Returns (RvStr "OK"), w')
    /\ committed w' = pending w'
    /\ searches (pending w') = searches (pending w) ++ [s]
    /\ (search_id s ∉ map search_id (searches (pending w)))
    /\ search_user s = user
    /\ search_language s = tl
    /\ search_contribution s = None
    /\ word (search_word s) = decode_word term
    /\ language_id (word_language (search_word s)) = language_id fl
    /\ search_word s ∈ words (pending w')
    /\ match form req !! "text" with
       | Some text_content =>
           exists t, search_text s = Some t
                     /\ content t = text_content
                     /\ text_language t = fl
                     /\ (text_id t ∉ map text_id (texts (pending w)))
                     /\ texts (pending w') = texts (pending w) ++ [t]
       | None =>
           search_text s = None /\ texts (pending w') = texts (pending w)
       end.
Proof.
  intros Hg Hf Ht.
  pose proof (lookup_run from_lang term to_lang req w user fl tl Hg Hf Ht)
    as Hrun.
  cbv zeta in Hrun.
  eexists _, _. split; [exact Hrun|]. simpl.
  split; [reflexivity|]. split; [reflexivity|].
  split; [apply next_id_fresh|].
  split; [reflexivity|]. split; [reflexivity|]. split; [reflexivity|].
  destruct (found_word_text (decode_word term) fl (pending w)) as [H1 H2].
  split; [exact H1|]. split; [exact H2|].
  split; [apply found_word_stored|].
  destruct (form req !! "text") as [text_content|]; simpl.
  - eexists. split; [reflexivity|]. simpl.
    split; [reflexivity|]. split; [reflexivity|].
    split; [apply next_id_fresh | reflexivity].
  - split; [reflexivity | now rewrite app_nil_r].
Qed.

Lemma lookup_appends_search_witness :
  exists (w' : World) (s : Search),
    views.lookup "en" "ice+cream" (LangCode "de")
      (sample_request (Some "7") [("text", "We had ice cream.")])
      sample_world_in_session
    = (Returns (RvStr "OK"), w')
    /\ searches (pending w') = [s]
    /\ word (search_word s) = "ice cream"
    /\ (exists t, search_text s = Some t /\ content t = "We had ice cream.").
Proof.
  destruct (lookup_appends_search "en" "ice+cream" (LangCode "de")
              (sample_request (Some "7") [("text", "We had ice cream.")])
              sample_world_in_session 1 english german
              eq_refl eq_refl eq_refl)
    as (w' & s & Hrun & _ & Hs & _ & _ & _ & _ & Hw & _ & _ & Ht).
  exists w', s. split; [exact Hrun|]. split; [exact Hs|]. split; [exact Hw|].
  destruct Ht as (t & Ht & Hc & _). exists t. now split.
Defined.

(** C3 as stated fails on a lookup from a language code that the store
    does not know: the request is answered with a server error and the
    search table is as before. *)
Lemma lookup_unknown_language_appends_nothing :
  let answer := flask_dispatch (api.lookup "xx" "cat" (LangCode "de"))
                  (sample_request (Some "7") []) sample_world in
  status (fst answer) = 500
  /\ searches (pending (snd answer)) = searches (pending sample_world)
  /\ ~ (forall (from_lang term : string) (to_lang : lang_arg)
               (req : Request) (w : World) (user : Z),
          g_user w = Some user ->
          exists w', views.lookup from_lang term to_lang req w
                     = (Returns (RvStr "OK"), w')
                     /\ length (searches (pending w'))
                        = S (length (searches (pending w)))).
Proof.
  split; [reflexivity|]. split; [reflexivity|].
  intros H.
  destruct (H "xx" "cat" (LangCode "de") (sample_request (Some "7") [])
              sample_world_in_session 1 eq_refl) as (w' & Hrun & _).
  vm_compute in Hrun. discriminate Hrun.
Qed.

Lemma contribute_with_context_attaches_or_stands_alone_witness :
  exists (w' : World) (c : Contribution),
    views.contribute_with_context "en" "ice+cream" "de" "Eis"
      (sample_request (Some "7")
         [("url", "http://x"); ("context", "We had ice cream.")])
      sample_world_in_session
    = (Returns (RvStr "OK"), w')
    /\ contributions (pending w') = [c]
    /\ word (origin c) = "ice cream"
    /\ word (translation c) = "Eis"
    /\ searches (pending w') = [].
Proof.
  destruct (contribute_with_context_attaches_or_stands_alone
              "en" "ice+cream" "de" "Eis"
              (sample_request (Some "7")
                 [("url", "http://x"); ("context", "We had ice cream.")])
              sample_world_in_session 1 "http://x" "We had ice cream."
              english german eq_refl eq_refl eq_refl eq_refl eq_refl)
    as (w' & c & Hrun & _ & Hc & _ & Ho & _ & _ & Ht & _ & _ & _ & _ & _
        & _ & _ & _ & _ & Hs).
  exists w', c. split; [exact Hrun|]. split; [exact Hc|].
  split; [exact Ho|]. split; [exact Ht|].
  destruct Hs as [(s & Hin & _) | [_ Hs]]; [|exact Hs].
  apply elem_of_nil in Hin. destruct Hin.
Defined.

(** C1 as stated fails on a request by an authenticated user that lacks
    the [url] form field, answered with 400, and on one whose target
    language code is unknown, answered with a server error; neither
    records a contribution. *)
Lemma contribute_with_context_rejects_incomplete_requests :
  let no_url := flask_dispatch
                  (api.contribute_with_context "en" "cat" "de" "Katze")
                  (sample_request (Some "7") [("context", "The cat sat")])
                  sample_world in
  let no_language := flask_dispatch
                  (api.contribute_with_context "en" "cat" "xx" "Katze")
                  (sample_request (Some "7")
                     [("url", "http://x"); ("context", "The cat sat")])
                  sample_world in
  status (fst no_url) = 400
  /\ contributions (pending (snd no_url)) = []
  /\ status (fst no_language) = 500
  /\ contributions (pending (snd no_language)) = []
  /\ ~ (forall (from_lang_code term to_lang_code tr : string)
               (req : Request) (w : World) (user : Z),
          g_user w = Some user ->
          exists w', views.contribute_with_context
                       from_lang_code term to_lang_code tr req w
                     = (Returns (RvStr "OK"), w')).
Proof.
  split; [reflexivity|]. split; [reflexivity|].
  split; [reflexivity|]. split; [reflexivity|].
  intros H.
  destruct (H "en" "cat" "de" "Katze"
              (sample_request (Some "7") [("context", "The cat sat")])
              sample_world_in_session 1 eq_refl) as (w' & Hrun).
  vm_compute in Hrun. discriminate Hrun.
Qed.

(** C6: decoding turns every ['+'] of a term into a space and keeps every
    other character and the length; the word that [lookup] stores in the
    search, and the origin and translation words that
    [contribute_with_context] stores in the contribution, are the ones the
    vocabulary store finds or creates for the decoded strings. *)
Theorem decode_word_precedes_vocabulary :
  decode_char "+" = " "%char
  /\ (forall c : ascii, c <> "+"%char -> decode_char c = c)
  /\ (forall s : string, String.length (decode_word s) = String.length s)
  /\ (forall (s : string) (i : nat),
        String.get i (decode_word s) = decode_char <$> String.get i s)
  /\ (forall (from_lang term : string) (to_lang : lang_arg) (req : Request)
             (w : World) (user : Z) (fl tl : Language),
        g_user w = Some user ->
        known_language from_lang (pending w) = Some fl ->
        language_of_arg to_lang (pending w) = Some tl ->
        exists (w' : World) (s : Search),
          views.lookup from_lang term to_lang req w = (Returns (RvStr "OK"), w')
          /\ last (searches (pending w')) = Some s
          /\ fst (Word_find (decode_word term) fl w) = Returns (search_word s)
          /\ word (search_word s) = decode_word term)
  /\ (forall (from_lang_code term to_lang_code tr : string) (req : Request)
             (w : World) (user : Z) (address context : string)
             (fl tl : Language),
        g_user w = Some user ->
        form req !! "url" = Some address ->
        form req !! "context" = Some context ->
        known_language from_lang_code (pending w) = Some fl ->
        known_language to_lang_code (pending w) = Some tl ->
        exists (w' w1 : World) (c : Contribution),
          views.contribute_with_context
            from_lang_code term to_lang_code tr req w
          = (Returns (RvStr "OK"), w')
          /\ last (contributions (pending w')) = Some c
          /\ Word_find (decode_word term) fl w = (Returns (origin c), w1)
          /\ fst (Word_find (decode_word tr) tl w1) = Returns (translation c)
          /\ word (origin c) = decode_word term
          /\ word (translation c) = decode_word tr).
Proof.
  split; [reflexivity|].
  split.
  { intros c Hc. unfold decode_char.
    destruct (Ascii.eqb c "+") eqn:E; [|reflexivity].
    apply Ascii.eqb_eq in E. contradiction. }
  split; [apply decode_word_length|].
  split; [apply decode_word_get|].
  split.
  - intros from_lang term to_lang req w user fl tl Hg Hf Ht.
    pose proof (lookup_run from_lang term to_lang req w user fl tl Hg Hf Ht)
      as Hrun.
    cbv zeta in Hrun.
    eexists _, _. split; [exact Hrun|]. simpl.
    split; [apply last_snoc|].
    split; [now rewrite Word_find_run|].
    apply found_word_text.
  - intros from_lang_code term to_lang_code tr req w user address context
           fl tl Hg Hu Hc Hf Ht.
    pose proof (contribute_with_context_run from_lang_code term to_lang_code
                  tr req w user address context fl tl Hg Hu Hc Hf Ht) as Hrun.
    cbv zeta in Hrun.
    eexists _, _, _. split; [exact Hrun|]. simpl.
    split; [apply last_snoc|].
    split; [apply Word_find_run|].
    split; [now rewrite Word_find_run|].
    split; apply found_word_text.
Qed.

Lemma decode_word_precedes_vocabulary_witness :
  exists (w' : World) (s : Search),
    views.lookup "en" "ice+cream" (LangCode "de") (sample_request (Some "7") [])
      sample_world_in_session
    = (Returns (RvStr "OK"), w')
    /\ last (searches (pending w')) = Some s
    /\ word (search_word s) = "ice cream".
Proof.
  destruct decode_word_precedes_vocabulary as (_ & _ & _ & _ & Hlookup & _).
  destruct (Hlookup "en" "ice+cream" (LangCode "de")
              (sample_request (Some "7") []) sample_world_in_session
              1 english german eq_refl eq_refl eq_refl)
    as (w' & s & Hrun & Hlast & _ & Hw).
  exists w', s. repeat split; assumption.
Defined.

(** ** Contributions by day *)

Lemma calendar_date_ignores_time_of_day (day t : Z) :
  0 <= t < microseconds_per_day ->
  calendar_date (day * microseconds_per_day + t) = day.
Proof.
  intros H. unfold calendar_date.
  symmetry. apply (Z.div_unique_pos _ _ day t); [exact H | lia].
Qed.

Lemma mapM_run {A B} (f : A -> M B) (g : A -> B) (l : list A) (w : World) :
  (forall x, x ∈ l -> f x w = (Returns (g x), w)) ->
  mapM f l w = (Returns (map g l), w).
Proof.
  induction l as [|x l IH]; intros H; simpl; [reflexivity|].
  unfold bind at 1. rewrite (H x) by (apply elem_of_cons; now left).
  unfold bind at 1. rewrite IH; [reflexivity|].
  intros y Hy. apply H, elem_of_cons. now right.
Qed.

Lemma contrib_entry_run (with_context : bool) (c : Contribution) (w : World) :
  is_Some (text_url (contribution_text c)) ->
  views.contrib_entry with_context c w
  = (Returns (contribution_json with_context c), w).
Proof.
  intros [u Hu]. unfold views.contrib_entry, contribution_json.
  rewrite Hu. destruct with_context; reflexivity.
Qed.

Section Buckets.

Variable Text_time : Text -> Z.

Let date := views.contribution_date Text_time.
Let on_day (d : Z) := List.filter (fun c => (date c =? d)%Z).

Lemma add_to_bucket_lookup (m : gmap Z (list Contribution))
    (c : Contribution) (d : Z) :
  views.add_to_bucket Text_time m c !! d
  = if (date c =? d)%Z then Some (default [] (m !! d) ++ [c]) else m !! d.
Proof.
  unfold views.add_to_bucket. fold date.
  destruct (date c =? d)%Z eqn:E.
  - apply Z.eqb_eq in E. subst d. apply lookup_insert_eq.
  - apply Z.eqb_neq in E. now apply lookup_insert_ne.
Qed.

Lemma fold_bucket_lookup (l : list Contribution)
    (m : gmap Z (list Contribution)) (d : Z) :
  fold_left (views.add_to_bucket Text_time) l m !! d
  = match on_day d l with
    | [] => m !! d
    | day => Some (default [] (m !! d) ++ day)
    end.
Proof.
  revert m. induction l as [|c l IH]; intros m; simpl; [reflexivity|].
  rewrite IH, add_to_bucket_lookup. unfold on_day.
  destruct (date c =? d)%Z; simpl; [|reflexivity].
  destruct (List.filter _ l); [reflexivity|].
  now rewrite <- app_assoc.
Qed.

Lemma bucket_of_day (l : list Contribution) (d : Z) :
  is_Some (fold_left (views.add_to_bucket Text_time) l ∅ !! d) ->
  fold_left (views.add_to_bucket Text_time) l ∅ !! d = Some (on_day d l).
Proof.
  rewrite fold_bucket_lookup, lookup_empty.
  destruct (on_day d l); [intros [x Hx]; discriminate | reflexivity].
Qed.

Lemma bucket_exists (l : list Contribution) (d : Z) :
  is_Some (fold_left (views.add_to_bucket Text_time) l ∅ !! d)
  <-> exists c, c ∈ l /\ date c = d.
Proof.
  rewrite fold_bucket_lookup, lookup_empty. split.
  - destruct (on_day d l) as [|c day] eqn:E; [intros [x Hx]; discriminate|].
    intros _. exists c.
    assert (Hin : In c (on_day d l)) by (rewrite E; now left).
    apply filter_In in Hin as [Hin Hd]. apply Z.eqb_eq in Hd.
    split; [now apply list_elem_of_In | exact Hd].
  - intros (c & Hin & Hd).
    assert (Hc : In c (on_day d l)).
    { apply filter_In. split; [now apply list_elem_of_In|].
      now apply Z.eqb_eq. }
    destruct (on_day d l); [destruct Hc | eauto].
Qed.

End Buckets.

Local Instance Z_ge_transitive : Transitive Z.ge.
Proof. intros x y z; lia. Qed.

Local Instance Z_ge_total : Total Z.ge.
Proof. intros x y; lia. Qed.

Lemma strictly_descending (l : list Z) :
  StronglySorted Z.ge l -> NoDup l -> StronglySorted Z.gt l.
Proof.
  induction 1 as [|x l Hs IH Hx]; intros Hn; constructor.
  - apply IH. now apply NoDup_cons in Hn as [_ Hn].
  - apply NoDup_cons in Hn as [Hnotin _].
    apply Forall_forall. intros y Hy.
    assert (x >= y) by (eapply Forall_forall in Hx; eauto).
    assert (x <> y) by (intros ->; apply Hnotin; now apply list_elem_of_In).
    lia.
Qed.

Lemma sorted_dates_descending (m : gmap Z (list Contribution)) :
  StronglySorted Z.gt (merge_sort Z.ge (map_to_list m).*1)
  /\ forall d, d ∈ merge_sort Z.ge (map_to_list m).*1 <-> is_Some (m !! d).
Proof.
  split.
  - apply strictly_descending; [apply StronglySorted_merge_sort; apply _|].
    rewrite merge_sort_Permutation. apply NoDup_fst_map_to_list.
  - intros d. rewrite merge_sort_Permutation, list_elem_of_fmap. split.
    + intros ([k v] & -> & H). apply elem_of_map_to_list in H. simpl. eauto.
    + intros [v H]. exists (d, v). split; [reflexivity|].
      now apply elem_of_map_to_list.
Qed.

(** C4: under a session, and with every contribution of the user having a
    text with a url (as every contribution recorded by
    [contribute_with_context] has), [contributions_by_day] answers with
    one entry per calendar date on which a text of one of the user's
    contributions is dated, the dates strictly descending; the entry of a
    date lists, in creation order, exactly the user's contributions of
    that date, each with its id, origin word, translation word, url title
    and url address, and with the context exactly when the path flag is
    ["with_context"]; the calendar date of an instant does not depend on
    the time of day; the world is left as it was. *)
Theorem contributions_by_day_groups_by_date
    (strftime : Z -> string) (Text_time : Text -> Z)
    (return_context : string) (req : Request) (w : World) (user : Z) :
  g_user w = Some user ->
  (forall c, c ∈ contributions (pending w) -> contribution_user c = user ->
             is_Some (text_url (contribution_text c))) ->
  exists sorted_dates : list Z,
    views.contributions_by_day strftime Text_time return_context req w
    = (Returns
         (RvResponse
            (json_response
               (JList
                  (map (day_json strftime Text_time
                          (String.eqb return_context "with_context")
                          user (pending w))
                       sorted_dates)))),
       w)
    /\ StronglySorted Z.gt sorted_dates
    /\ (forall d, d ∈ sorted_dates <->
          exists c, c ∈ contributions (pending w)
                    /\ contribution_user c = user
                    /\ calendar_date (Text_time (contribution_text c)) = d)
    /\ (forall d c, c ∈ contributions_of_day Text_time user (pending w) d <->
          c ∈ contributions (pending w)
          /\ contribution_user c = user
          /\ calendar_date (Text_time (contribution_text c)) = d)
    /\ (forall day t, 0 <= t < microseconds_per_day ->
          calendar_date (day * microseconds_per_day + t) = day).
Proof.
  intros Hg Hurl.
  set (mine := views.all_contributions user (pending w)).
  set (by_date := fold_left (views.add_to_bucket Text_time) mine ∅).
  assert (Hmine : forall c, c ∈ mine <->
            c ∈ contributions (pending w) /\ contribution_user c = user).
  { intros c. unfold mine, views.all_contributions.
    rewrite list_elem_of_In, filter_In, <- list_elem_of_In, Z.eqb_eq.
    reflexivity. }
  assert (Hday : forall d c,
            c ∈ contributions_of_day Text_time user (pending w) d <->
            c ∈ contributions (pending w) /\ contribution_user c = user
            /\ calendar_date (Text_time (contribution_text c)) = d).
  { intros d c. unfold contributions_of_day. fold mine.
    rewrite list_elem_of_In, filter_In, <- list_elem_of_In, Z.eqb_eq, Hmine.
    unfold views.contribution_date. tauto. }
  destruct (sorted_dates_descending by_date) as [Hsorted Hkeys].
  exists (merge_sort Z.ge (map_to_list by_date).*1).
  split; [|split; [exact Hsorted|split; [|split; [exact Hday|]]]].
  - unfold views.contributions_by_day, bind at 1, get_g_user. rewrite Hg.
    unfold bind at 1, views.User_contribs_by_date, bind at 1, get_store, ret.
    simpl. fold mine. fold by_date.
    unfold bind at 1.
    rewrite (mapM_run _ (day_json strftime Text_time
                           (String.eqb return_context "with_context")
                           user (pending w))); [reflexivity|].
    intros d Hd. apply Hkeys in Hd.
    unfold views.date_entry, bind at 1, dict_getitem.
    unfold by_date in *. rewrite (bucket_of_day Text_time mine d Hd).
    unfold ret at 1, bind at 1.
    rewrite (mapM_run _ (contribution_json
                           (String.eqb return_context "with_context"))).
    + reflexivity.
    + intros c Hc. apply contrib_entry_run.
      apply list_elem_of_In, filter_In in Hc as [Hc _].
      apply list_elem_of_In, Hmine in Hc as [Hc Hu]. now apply Hurl.
  - intros d. rewrite Hkeys. unfold by_date.
    rewrite (bucket_exists Text_time mine d). split.
    + intros (c & Hc & Hd). apply Hmine in Hc as [Hc Hu]. eauto.
    + intros (c & Hc & Hu & Hd). exists c. split; [|exact Hd].
      apply Hmine. now split.
  - apply calendar_date_ignores_time_of_day.
Qed.

Lemma contributions_by_day_groups_by_date_witness :
  exists sorted_dates : list Z,
    views.contributions_by_day sample_strftime sample_text_time
      "with_context" (sample_request (Some "7") [])
      sample_world_with_contributions
    = (Returns
         (RvResponse
            (json_response
               (JList
                  (map (day_json sample_strftime sample_text_time true 1
                          (pending sample_world_with_contributions))
                       sorted_dates)))),
       sample_world_with_contributions)
    /\ StronglySorted Z.gt sorted_dates
    /\ (2 ∈ sorted_dates /\ 1 ∈ sorted_dates).
Proof.
  destruct (contributions_by_day_groups_by_date
              sample_strftime sample_text_time "with_context"
              (sample_request (Some "7") [])
              sample_world_with_contributions 1 eq_refl)
    as (sorted_dates & Hrun & Hsorted & Hdates & _).
  - intros c Hc _.
    let l := eval vm_compute in
               (contributions (pending sample_world_with_contributions)) in
    change (contributions (pending sample_world_with_contributions))
      with l in Hc.
    repeat (apply elem_of_cons in Hc as [->|Hc]; [eexists; reflexivity|]).
    apply elem_of_nil in Hc. destruct Hc.
  - exists sorted_dates. split; [exact Hrun|]. split; [exact Hsorted|].
    split; apply Hdates.
    + eexists. split; [apply elem_of_cons; right; apply elem_of_cons; left;
                       reflexivity|]. split; reflexivity.
    + eexists. split; [apply elem_of_cons; left; reflexivity|].
      split; reflexivity.
Defined.

Example contributions_by_day_sample :
  fst (flask_dispatch
         (api.contributions_by_day sample_strftime sample_text_time "plain")
         (sample_request (Some "7") []) sample_world_with_contributions)
  = mkResponse 200 {[ "Access-Control-Allow-Origin" := "*" ]}
      "application/json"
      (BodyJson
         (JList
            [JObj [("date", JStr "Tuesday, 02 January");
                   ("contribs",
                    JList [JObj [("id", JNum 2); ("from", JStr "cat");
                                 ("to", JStr "Katze"); ("title", JStr "Y");
                                 ("url", JStr "http://y")]])];
             JObj [("date", JStr "Monday, 01 January");
                   ("contribs",
                    JList [JObj [("id", JNum 1); ("from", JStr "ice cream");
                                 ("to", JStr "Eis"); ("title", JStr EmptyString);
                                 ("url", JStr "http://x")]])]])).
Proof. vm_compute. reflexivity. Qed.

(** The hypothesis of C4 on the store is an invariant of the views that
    write to it. *)
Lemma contribute_with_context_keeps_urls
    (from_lang_code term to_lang_code tr : string) (req : Request)
    (w w' : World) (rv : view_result) :
  contributions_have_urls (pending w) ->
  views.contribute_with_context from_lang_code term to_lang_code tr req w
  = (Returns rv, w') ->
  contributions_have_urls (pending w').
Proof.
  intros Hinv. unfold views.contribute_with_context, form_getitem.
  destruct (form req !! "url") as [address|];
    [|unfold bind, flask_abort, raise; discriminate].
  destruct (form req !! "context") as [context|];
    [|unfold bind, flask_abort, raise, ret; discriminate].
  unfold bind at 1 2. simpl.
  unfold bind at 1. rewrite Url_find_run.
  unfold bind at 1, Language_find at 1, bind at 1, get_store at 1.
  cbv beta iota.
  destruct (known_language from_lang_code _) as [fl|];
    [|unfold raise; discriminate].
  unfold ret at 1, bind at 1, Language_find at 1, bind at 1, get_store at 1.
  cbv beta iota.
  destruct (known_language to_lang_code _) as [tl|];
    [|unfold raise; discriminate].
  unfold ret at 1, bind at 1. rewrite Word_find_run.
  unfold bind at 1. rewrite Word_find_run.
  unfold bind at 1, get_g_user.
  destruct w as [st cm gu ck tk]. destruct st. simpl in *.
  destruct gu as [user|]; [|discriminate].
  cbv [bind Search_query_first get_store ret Text_new modify_store
       datetime_now Contribution_new Search_set_contribution db_session_add
       db_session_commit set_pending]; simpl.
  destruct (head _); intros [= _ <-]; simpl;
    intros c Hc; (apply elem_of_app in Hc as [Hc|Hc];
                  [now apply Hinv
                  |apply list_elem_of_singleton in Hc as ->; simpl; eauto]).
Qed.

Lemma lookup_keeps_contributions
    (from_lang term : string) (to_lang : lang_arg) (req : Request)
    (w : World) (user : Z) (fl tl : Language) :
  g_user w = Some user ->
  known_language from_lang (pending w) = Some fl ->
  language_of_arg to_lang (pending w) = Some tl ->
  contributions (pending (snd (views.lookup from_lang term to_lang req w)))
  = contributions (pending w).
Proof.
  intros Hg Hf Ht.
  now rewrite (lookup_run from_lang term to_lang req w user fl tl Hg Hf Ht).
Qed.

(** * Further properties of the endpoints *)

Local Arguments attach_contribution : simpl never.

(** ** The cross-origin decorator *)

(** X1: decorating a view twice with [cross_domain], as happens when
    [lookup_preferred] calls the decorated [lookup], gives what decorating
    it once gives, for every view, request and world. *)
Theorem cross_domain_idempotent (view : View) (req : Request) (w : World) :
  cross_domain (cross_domain view) req w = cross_domain view req w.
Proof.
  unfold cross_domain, bind.
  destruct (view req w) as [[rv|e] w']; [|reflexivity].
  destruct (flask_make_response rv w') as [[r|e] w''] eqn:E; [|reflexivity].
  simpl. unfold ret, set_header. simpl. now rewrite insert_insert_eq.
Qed.

(** X2: serving a request through [cross_domain] leaves the world, the
    status, the mimetype, the body and every other header as the bare view
    gives them; the cross-origin header is ["*"] exactly when the view
    returned a string or a response, and is not added when it raised or
    returned [None]. *)
Theorem cross_domain_adds_only_the_header
    (view : View) (req : Request) (w : World) :
  let plain := flask_dispatch view req w in
  let decorated := flask_dispatch (cross_domain view) req w in
  snd decorated = snd plain
  /\ status (fst decorated) = status (fst plain)
  /\ mimetype (fst decorated) = mimetype (fst plain)
  /\ body (fst decorated) = body (fst plain)
  /\ (forall h, h <> cors_header ->
        headers (fst decorated) !! h = headers (fst plain) !! h)
  /\ headers (fst decorated) !! cors_header
     = match view req w with
       | (Returns (RvStr _), _) | (Returns (RvResponse _), _) => Some "*"
       | _ => headers (fst plain) !! cors_header
       end.
Proof.
  unfold flask_dispatch, cross_domain, bind, cors_header.
  destruct (view req w) as [[rv|e] w']; [|repeat split].
  destruct rv as [s| |r]; simpl; repeat split;
    try (intros h Hh; now rewrite lookup_insert_ne);
    apply lookup_insert_eq.
Qed.

(** ** Decoding of path words *)

Lemma decode_word_app (a b : string) :
  decode_word (a +:+ b) = decode_word a +:+ decode_word b.
Proof.
  unfold decode_word. induction a as [|c a IH]; simpl; [reflexivity|].
  now rewrite IH.
Qed.

Lemma decode_word_no_plus (s : string) : string_mem "+" (decode_word s) = false.
Proof.
  unfold decode_word. induction s as [|c s IH]; simpl; [reflexivity|].
  rewrite IH, orb_false_r.
  destruct (Ascii.eqb c "+") eqn:E; [reflexivity | exact E].
Qed.

Lemma decode_word_fixed (s : string) :
  decode_word s = s <-> string_mem "+" s = false.
Proof.
  unfold decode_word. induction s as [|c s IH]; simpl; [tauto|].
  destruct (Ascii.eqb c "+") eqn:E; simpl.
  - apply Ascii.eqb_eq in E. subst c. split; [intros [=] | discriminate].
  - rewrite <- IH. split; [now intros [= ->] | now intros ->].
Qed.

(** X3: a decoded word holds no ['+']; decoding is the identity exactly on
    the strings without ['+'] and distributes over concatenation; two
    terms that decode alike are the same term to [lookup] and to
    [contribute_with_context]. *)
Theorem decode_word_normalises :
  (forall s, string_mem "+" (decode_word s) = false)
  /\ (forall s, decode_word s = s <-> string_mem "+" s = false)
  /\ (forall a b, decode_word (a +:+ b) = decode_word a +:+ decode_word b)
  /\ (forall t1 t2 from_lang to_lang req w,
        decode_word t1 = decode_word t2 ->
        views.lookup from_lang t1 to_lang req w
        = views.lookup from_lang t2 to_lang req w)
  /\ (forall t1 t2 tr1 tr2 from_lang to_lang req w,
        decode_word t1 = decode_word t2 ->
        decode_word tr1 = decode_word tr2 ->
        views.contribute_with_context from_lang t1 to_lang tr1 req w
        = views.contribute_with_context from_lang t2 to_lang tr2 req w).
Proof.
  split; [apply decode_word_no_plus|].
  split; [apply decode_word_fixed|].
  split; [apply decode_word_app|].
  split.
  - intros t1 t2 from_lang to_lang req w H.
    unfold views.lookup. now rewrite H.
  - intros t1 t2 tr1 tr2 from_lang to_lang req w H1 H2.
    unfold views.contribute_with_context. now rewrite H1, H2.
Qed.

Lemma decode_word_normalises_witness :
  views.lookup "en" "ice+cream" (LangCode "de") (sample_request (Some "7") [])
    sample_world_in_session
  = views.lookup "en" "ice cream" (LangCode "de") (sample_request (Some "7") [])
      sample_world_in_session.
Proof.
  destruct decode_word_normalises as (_ & _ & _ & H & _).
  apply H. reflexivity.
Defined.

(** ** Translation with context *)

(** X4: when the [context] or the [url] form field is missing,
    [translate_with_context] aborts with 400 in the world it started in,
    whatever the provider: the provider is not consulted. *)
Theorem translate_with_context_needs_both_fields
    (provider : string -> string -> string -> M string)
    (w from_lang_code to_lang_code : string) (req : Request) (world : World) :
  form req !! "context" = None \/ form req !! "url" = None ->
  views.translate_from_to_with_context
    provider w from_lang_code to_lang_code req world
  = (Raises (HTTPException 400), world)
  /\ fst (flask_dispatch
            (api.translate_from_to_with_context
               provider w from_lang_code to_lang_code) req world)
     = mkResponse 400 ∅ "text/html" (BodyText EmptyString).
Proof.
  intros H.
  assert (E : views.translate_from_to_with_context
                provider w from_lang_code to_lang_code req world
              = (Raises (HTTPException 400), world)).
  { unfold views.translate_from_to_with_context, form_getitem, bind.
    destruct (form req !! "context") as [c|]; [|reflexivity].
    destruct H as [H|H]; [discriminate|]. now rewrite H. }
  split; [exact E|].
  unfold flask_dispatch, api.translate_from_to_with_context, cross_domain,
    bind at 1, bind at 1.
  now rewrite E.
Qed.

Lemma translate_with_context_needs_both_fields_witness :
  views.translate_from_to_with_context sample_provider "Haus" "de" "en"
    (sample_request None [("context", "Das Haus ist alt")]) sample_world
  = (Raises (HTTPException 400), sample_world)
  /\ fst (flask_dispatch
            (api.translate_from_to_with_context sample_provider
               "Haus" "de" "en")
            (sample_request None [("context", "Das Haus ist alt")])
            sample_world)
     = mkResponse 400 ∅ "text/html" (BodyText EmptyString).
Proof.
  apply (translate_with_context_needs_both_fields sample_provider).
  right. reflexivity.
Defined.

(** ** Outcomes of the writing views *)

Lemma Language_find_arg (a : lang_arg) (w : World) :
  (match a with
   | LangObject l => ret l
   | _ => Language_find a
   end) w
  = match language_of_arg a (pending w) with
    | Some l => (Returns l, w)
    | None => (Raises NotFound, w)
    end.
Proof.
  destruct a as [code|l|]; simpl; try reflexivity.
  unfold Language_find, bind, get_store. simpl.
  destruct (known_language code (pending w)); reflexivity.
Qed.

(** Every run of [lookup] either raises in the world it started in, or
    meets the conditions under which it succeeds. *)
Lemma lookup_cases (from_lang term : string) (to_lang : lang_arg)
    (req : Request) (w : World) :
  (exists e, views.lookup from_lang term to_lang req w = (Raises e, w))
  \/ (exists user fl tl,
        g_user w = Some user
        /\ known_language from_lang (pending w) = Some fl
        /\ language_of_arg to_lang (pending w) = Some tl).
Proof.
  destruct (known_language from_lang (pending w)) as [fl|] eqn:Hf.
  - destruct (language_of_arg to_lang (pending w)) as [tl|] eqn:Ht.
    + destruct (g_user w) as [user|] eqn:Hg; [right; eauto 6|].
      left. exists AttributeError. unfold views.lookup.
      unfold bind at 1. rewrite (Language_find_known _ fl) by exact Hf.
      unfold bind at 1. rewrite Language_find_arg, Ht.
      unfold bind at 1, get_g_user. now rewrite Hg.
    + left. exists NotFound. unfold views.lookup.
      unfold bind at 1. rewrite (Language_find_known _ fl) by exact Hf.
      unfold bind at 1. now rewrite Language_find_arg, Ht.
  - left. exists NotFound. unfold views.lookup.
    unfold bind at 1. now rewrite Language_find_unknown.
Qed.

Lemma words_after_prefix (text : string) (language : Language) (st : Store) :
  words st `prefix_of` words_after text language st.
Proof.
  unfold words_after. destruct (stored_word text language st).
  - reflexivity.
  - now apply prefix_app_r.
Qed.

Lemma urls_after_prefix (address url_title : string) (st : Store) :
  urls st `prefix_of` urls_after address url_title st.
Proof.
  unfold urls_after. destruct (stored_url address st).
  - reflexivity.
  - now apply prefix_app_r.
Qed.

Lemma NoDup_snoc_next_id {A} (f : A -> Z) (l : list A) (x : A) :
  f x = next_id (map f l) -> NoDup (map f l) -> NoDup (map f (l ++ [x])).
Proof.
  intros E Hn. rewrite map_app. simpl. apply NoDup_app.
  split; [exact Hn|]. split; [|apply NoDup_singleton].
  intros k Hk Hx. apply list_elem_of_singleton in Hx. subst k.
  rewrite E in Hk. now apply next_id_fresh in Hk.
Qed.

Lemma words_after_keys (text : string) (language : Language) (st : Store) :
  NoDup (map word_id (words st)) ->
  NoDup (map word_id (words_after text language st)).
Proof.
  intros Hn. unfold words_after, found_word.
  destruct (stored_word text language st); simpl; [exact Hn|].
  now apply NoDup_snoc_next_id.
Qed.

Lemma urls_after_keys (address url_title : string) (st : Store) :
  NoDup (map url_id (urls st)) ->
  NoDup (map url_id (urls_after address url_title st)).
Proof.
  intros Hn. unfold urls_after, found_url.
  destruct (stored_url address st); simpl; [exact Hn|].
  now apply NoDup_snoc_next_id.
Qed.

(** Every run of [contribute_with_context] either aborts with 400 in the
    world it started in, or raises after at most new url and word rows
    joined the unit of work, or meets the conditions under which it
    succeeds. *)
Lemma contribute_with_context_cases
    (from_lang_code term to_lang_code tr : string) (req : Request)
    (w : World) :
  views.contribute_with_context from_lang_code term to_lang_code tr req w
  = (Raises (HTTPException 400), w)
  \/ (exists e url_rows word_rows,
        views.contribute_with_context from_lang_code term to_lang_code tr req w
        = (Raises e,
           set_pending (set_words (fun _ => word_rows))
             (set_pending (set_urls (fun _ => url_rows)) w))
        /\ urls (pending w) `prefix_of` url_rows
        /\ words (pending w) `prefix_of` word_rows
        /\ (NoDup (map url_id (urls (pending w))) ->
            NoDup (map url_id url_rows))
        /\ (NoDup (map word_id (words (pending w))) ->
            NoDup (map word_id word_rows)))
  \/ (exists user address context fl tl,
        g_user w = Some user
        /\ form req !! "url" = Some address
        /\ form req !! "context" = Some context
        /\ known_language from_lang_code (pending w) = Some fl
        /\ known_language to_lang_code (pending w) = Some tl).
Proof.
  destruct (form req !! "url") as [address|] eqn:Hu;
    [|left; unfold views.contribute_with_context, form_getitem;
      now rewrite Hu].
  destruct (form req !! "context") as [context|] eqn:Hc;
    [|left; unfold views.contribute_with_context, form_getitem;
      now rewrite Hu, Hc].
  right.
  set (title := default EmptyString (form req !! "title")).
  set (w1 := set_pending
               (set_urls (fun _ => urls_after address title (pending w))) w).
  assert (Hstart :
    views.contribute_with_context from_lang_code term to_lang_code tr req w
    = bind (Language_find (LangCode from_lang_code)) (fun from_lang =>
      bind (Language_find (LangCode to_lang_code)) (fun to_lang =>
      bind (Word_find (decode_word term) from_lang) (fun o =>
      bind (Word_find (decode_word tr) to_lang) (fun t =>
      bind get_g_user (fun user =>
      bind (Search_query_first user o to_lang) (fun search =>
      bind (Text_new context from_lang
              (Some (found_url address title (pending w)))) (fun new_text =>
      bind datetime_now (fun now =>
      bind (Contribution_new o t user new_text now) (fun contribution =>
      bind (match search with
            | Some s => Search_set_contribution s contribution
            | None => db_session_add contribution
            end) (fun _ =>
      bind db_session_commit (fun _ => ret (RvStr "OK")))))))))))) w1).
  { unfold views.contribute_with_context, form_getitem. rewrite Hu, Hc.
    unfold bind at 1 2. simpl. unfold bind at 1. now rewrite Url_find_run. }
  assert (Hw1 : w1 = set_pending (set_words (fun _ => words (pending w)))
                       (set_pending (set_urls (fun _ =>
                          urls_after address title (pending w))) w)).
  { unfold w1. destruct w as [[] ? ? ? ?]. reflexivity. }
  destruct (known_language from_lang_code (pending w)) as [fl|] eqn:Hf.
  2:{ left. exists NotFound, (urls_after address title (pending w)),
        (words (pending w)).
      split; [|split; [apply urls_after_prefix
                      |split; [reflexivity
                              |split; [apply urls_after_keys | auto]]]].
      rewrite Hstart. unfold bind at 1.
      rewrite Language_find_unknown; [now rewrite Hw1 at 1|].
      unfold w1. destruct w as [[] ? ? ? ?]. exact Hf. }
  destruct (known_language to_lang_code (pending w)) as [tl|] eqn:Ht.
  2:{ left. exists NotFound, (urls_after address title (pending w)),
        (words (pending w)).
      split; [|split; [apply urls_after_prefix
                      |split; [reflexivity
                              |split; [apply urls_after_keys | auto]]]].
      rewrite Hstart. unfold bind at 1.
      rewrite (Language_find_known _ fl)
        by (unfold w1; destruct w as [[] ? ? ? ?]; exact Hf).
      unfold bind at 1.
      rewrite Language_find_unknown; [now rewrite Hw1 at 1|].
      unfold w1. destruct w as [[] ? ? ? ?]. exact Ht. }
  destruct (g_user w) as [user|] eqn:Hg; [right; eauto 10|].
  left.
  set (st1 := set_words
                (fun _ => words_after (decode_word term) fl (pending w))
                (pending w)).
  exists AttributeError, (urls_after address title (pending w)),
    (words_after (decode_word tr) tl st1).
  split; [|split; [apply urls_after_prefix
                  |split; [|split; [apply urls_after_keys|]]]].
  - rewrite Hstart. unfold bind at 1.
    rewrite (Language_find_known _ fl)
      by (unfold w1; destruct w as [[] ? ? ? ?]; exact Hf).
    unfold bind at 1.
    rewrite (Language_find_known _ tl)
      by (unfold w1; destruct w as [[] ? ? ? ?]; exact Ht).
    unfold bind at 1. rewrite Word_find_run.
    unfold bind at 1. rewrite Word_find_run.
    unfold bind at 1, get_g_user, w1, st1.
    destruct w as [[] ? ? ? ?]. simpl in *. subst. reflexivity.
  - etransitivity; [apply (words_after_prefix (decode_word term) fl)|].
    apply (words_after_prefix (decode_word tr) tl st1).
  - intros Hn. apply words_after_keys. unfold st1. simpl.
    now apply words_after_keys.
Qed.

(** X5: [lookup] and [contribute_with_context] commit only when they
    answer: after a normal return the committed store is the unit of work,
    and after any exception the committed store is the one before the
    call; a failed [lookup] leaves the whole world as it was, and a failed
    [contribute_with_context] has added no text, no contribution and no
    link to a search. *)
Theorem writing_views_commit_only_on_success :
  (forall from_lang term to_lang req w,
     let r := views.lookup from_lang term to_lang req w in
     match fst r with
     | Returns _ => committed (snd r) = pending (snd r)
     | Raises _ => snd r = w
     end)
  /\ (forall from_lang_code term to_lang_code tr req w,
        let r := views.contribute_with_context
                   from_lang_code term to_lang_code tr req w in
        match fst r with
        | Returns _ => committed (snd r) = pending (snd r)
        | Raises _ =>
            committed (snd r) = committed w
            /\ texts (pending (snd r)) = texts (pending w)
            /\ contributions (pending (snd r)) = contributions (pending w)
            /\ searches (pending (snd r)) = searches (pending w)
        end).
Proof.
  split.
  - intros from_lang term to_lang req w.
    destruct (lookup_cases from_lang term to_lang req w)
      as [[e H] | (user & fl & tl & Hg & Hf & Ht)].
    + now rewrite H.
    + now rewrite (lookup_run from_lang term to_lang req w user fl tl Hg Hf Ht).
  - intros from_lang_code term to_lang_code tr req w.
    destruct (contribute_with_context_cases
                from_lang_code term to_lang_code tr req w)
      as [H | [(e & url_rows & word_rows & H & _)
              | (user & address & context & fl & tl & Hg & Hu & Hc & Hf & Ht)]].
    + rewrite H. now repeat split.
    + rewrite H. now repeat split.
    + now rewrite (contribute_with_context_run from_lang_code term to_lang_code
                     tr req w user address context fl tl Hg Hu Hc Hf Ht).
Qed.

Lemma attach_contribution_keeps_rows (key : Z) (c : Contribution)
    (l : list Search) :
  map without_contribution (attach_contribution key c l)
  = map without_contribution l.
Proof.
  unfold attach_contribution. rewrite map_map. apply map_ext.
  intros s. destruct (search_id s =? key)%Z; reflexivity.
Qed.

(** X6: whatever its outcome, [contribute_with_context] removes and alters
    no stored row: sessions, users, languages and readings are as before,
    the word, url, text and contribution tables keep their rows as a
    prefix, and the search table keeps every row in place, identical but
    for its link to a contribution. *)
Theorem contribute_with_context_only_adds
    (from_lang_code term to_lang_code tr : string) (req : Request)
    (w : World) :
  let st := pending w in
  let st' := pending (snd (views.contribute_with_context
                             from_lang_code term to_lang_code tr req w)) in
  sessions st' = sessions st
  /\ users st' = users st
  /\ languages st' = languages st
  /\ readings st' = readings st
  /\ words st `prefix_of` words st'
  /\ urls st `prefix_of` urls st'
  /\ texts st `prefix_of` texts st'
  /\ contributions st `prefix_of` contributions st'
  /\ map without_contribution (searches st')
     = map without_contribution (searches st).
Proof.
  destruct (contribute_with_context_cases
              from_lang_code term to_lang_code tr req w)
    as [H | [(e & url_rows & word_rows & H & Hurls & Hwords & _)
            | (user & address & context & fl & tl & Hg & Hu & Hc & Hf & Ht)]].
  - rewrite H. simpl. now repeat split.
  - rewrite H. simpl. now repeat split.
  - rewrite (contribute_with_context_run from_lang_code term to_lang_code
               tr req w user address context fl tl Hg Hu Hc Hf Ht).
    simpl. repeat split.
    + etransitivity; [apply (words_after_prefix (decode_word term) fl)|].
      apply (words_after_prefix (decode_word tr) tl
               (set_words (fun _ => words_after (decode_word term) fl (pending w))
                          (pending w))).
    + apply urls_after_prefix.
    + now apply prefix_app_r.
    + now apply prefix_app_r.
    + destruct (latest_search _ _ _ _); [|reflexivity].
      apply attach_contribution_keeps_rows.
Qed.

(** X7: whatever its outcome, [lookup] leaves sessions, users, languages,
    urls and contributions as they were, and the word, text, search and
    reading tables keep their rows as a prefix: no stored search is
    removed, reordered or changed. *)
Theorem lookup_only_appends
    (from_lang term : string) (to_lang : lang_arg) (req : Request)
    (w : World) :
  let st := pending w in
  let st' := pending (snd (views.lookup from_lang term to_lang req w)) in
  sessions st' = sessions st
  /\ users st' = users st
  /\ languages st' = languages st
  /\ urls st' = urls st
  /\ contributions st' = contributions st
  /\ words st `prefix_of` words st'
  /\ texts st `prefix_of` texts st'
  /\ searches st `prefix_of` searches st'
  /\ readings st `prefix_of` readings st'.
Proof.
  destruct (lookup_cases from_lang term to_lang req w)
    as [[e H] | (user & fl & tl & Hg & Hf & Ht)].
  - rewrite H. simpl. now repeat split.
  - rewrite (lookup_run from_lang term to_lang req w user fl tl Hg Hf Ht).
    simpl. repeat split; try (now apply prefix_app_r).
    apply words_after_prefix.
Qed.

(** ** A lookup followed by a contribution *)

Lemma find_app {A} (f : A -> bool) (l1 l2 : list A) :
  List.find f (l1 ++ l2)
  = match List.find f l1 with
    | Some x => Some x
    | None => List.find f l2
    end.
Proof.
  induction l1 as [|x l1 IH]; simpl; [reflexivity|].
  destruct (f x); [reflexivity | exact IH].
Qed.

Lemma same_language_refl (l : Language) : same_language l l = true.
Proof. unfold same_language. apply String.eqb_refl. Qed.

(** Once a word has been found or created, finding it again gives the same
    row and adds nothing. *)
Lemma found_word_again (text : string) (language : Language) (st st1 : Store) :
  words st1 = words_after text language st ->
  stored_word text language st1 = Some (found_word text language st).
Proof.
  intros H. unfold stored_word at 1. rewrite H.
  unfold words_after, found_word.
  destruct (stored_word text language st) as [x|] eqn:E; simpl.
  - exact E.
  - rewrite find_app. unfold stored_word in E. rewrite E. simpl.
    now rewrite String.eqb_refl, same_language_refl.
Qed.

Lemma latest_search_newest (user : Z) (w : Word) (language : Language)
    (st : Store) (l : list Search) (s : Search) :
  searches st = l ++ [s] ->
  search_matches user w language s = true ->
  (forall x, x ∈ l -> search_id x < search_id s) ->
  latest_search user w language st = Some s.
Proof.
  intros Hs Hm Hlt.
  destruct (latest_search user w language st) as [m|] eqn:E.
  - apply latest_search_Some in E as (Hin & _ & Hmax).
    rewrite Hs in Hin, Hmax.
    apply elem_of_app in Hin as [Hin|Hin].
    + specialize (Hlt m Hin).
      assert (search_id s <= search_id m).
      { apply Hmax; [|exact Hm]. apply elem_of_app. right.
        now apply list_elem_of_singleton. }
      lia.
    + apply list_elem_of_singleton in Hin. now subst m.
  - pose proof (latest_search_None _ _ _ _ E s) as Hnone.
    rewrite Hs in Hnone. rewrite Hnone in Hm; [discriminate|].
    apply elem_of_app. right. now apply list_elem_of_singleton.
Qed.

Lemma attach_contribution_new_row (c : Contribution) (l : list Search)
    (s : Search) :
  (forall x, x ∈ l -> search_id x < search_id s) ->
  attach_contribution (search_id s) c (l ++ [s])
  = l ++ [set_search_contribution c s].
Proof.
  intros Hlt. unfold attach_contribution. rewrite map_app. simpl.
  rewrite Z.eqb_refl. f_equal.
  rewrite <- (map_id l) at 2. apply map_ext_in.
  intros x Hx. apply list_elem_of_In, Hlt in Hx.
  destruct (search_id x =? search_id s)%Z eqn:E; [|reflexivity].
  apply Z.eqb_eq in E. lia.
Qed.

(** X8: when a user logs a lookup of a term and then contributes a
    translation of the same term for the same languages, both views
    answer "OK" and the contribution is linked to the search that the
    lookup appended: no other search row changes, the search keeps its
    word, and the contribution's origin is that word. *)
Theorem contribute_after_lookup_links_the_search
    (from_lang term to_lang tr : string) (req1 req2 : Request) (w : World)
    (user : Z) (address context : string) (fl tl : Language) :
  g_user w = Some user ->
  known_language from_lang (pending w) = Some fl ->
  known_language to_lang (pending w) = Some tl ->
  form req2 !! "url" = Some address ->
  form req2 !! "context" = Some context ->
  exists (w1 w2 : World) (s : Search) (c : Contribution),
    views.lookup from_lang term (LangCode to_lang) req1 w
    = (Returns (RvStr "OK"), w1)
    /\ views.contribute_with_context from_lang term to_lang tr req2 w1
       = (Returns (RvStr "OK"), w2)
    /\ searches (pending w1) = searches (pending w) ++ [s]
    /\ search_contribution s = None
    /\ searches (pending w2)
       = searches (pending w) ++ [set_search_contribution c s]
    /\ contributions (pending w2) = contributions (pending w) ++ [c]
    /\ origin c = search_word s
    /\ word (origin c) = decode_word term
    /\ word (translation c) = decode_word tr
    /\ words (pending w1) `prefix_of` words (pending w2).
Proof.
  intros Hg Hf Ht Hu Hc.
  pose proof (lookup_run from_lang term (LangCode to_lang) req1 w user fl tl
                Hg Hf Ht) as H1.
  cbv zeta in H1.
  match type of H1 with _ = (_, ?x) => set (w1 := x) in * end.
  pose proof (contribute_with_context_run from_lang term to_lang tr req2 w1
                user address context fl tl Hg Hu Hc Hf Ht) as H2.
  cbv zeta in H2.
  set (st := pending w) in *.
  set (o := found_word (decode_word term) fl st) in *.
  assert (Ho : found_word (decode_word term) fl (pending w1) = o).
  { unfold found_word at 1.
    now rewrite (found_word_again (decode_word term) fl st (pending w1)). }
  rewrite Ho in H2.
  set (s := mkSearch (next_id (map search_id (searches st))) user o tl
              ((fun c => mkText (next_id (map text_id (texts st))) c fl None)
                 <$> form req1 !! "text") None).
  assert (Hlt : forall x, x ∈ searches st -> search_id x < search_id s).
  { intros x Hx. simpl. apply next_id_above, list_elem_of_In, in_map.
    now apply list_elem_of_In. }
  assert (Hm : search_matches user o tl s = true).
  { unfold search_matches. simpl.
    now rewrite !Z.eqb_refl, same_language_refl. }
  rewrite (latest_search_newest user o tl (pending w1) (searches st) s
             eq_refl Hm Hlt) in H2.
  simpl searches in H2.
  rewrite (attach_contribution_new_row _ _ s Hlt) in H2.
  eexists w1, _, s, _. split; [exact H1|]. split; [exact H2|].
  simpl. split; [reflexivity|]. split; [reflexivity|].
  split; [reflexivity|]. split; [reflexivity|]. split; [reflexivity|].
  split; [apply found_word_text|]. split; [apply found_word_text|].
  etransitivity; [|apply words_after_prefix].
  simpl. unfold words_after at 2.
  rewrite (found_word_again (decode_word term) fl st); reflexivity.
Qed.

Lemma contribute_after_lookup_links_the_search_witness :
  exists (w1 w2 : World) (s : Search) (c : Contribution),
    views.lookup "en" "ice+cream" (LangCode "de")
      (sample_request (Some "7") []) sample_world_in_session
    = (Returns (RvStr "OK"), w1)
    /\ views.contribute_with_context "en" "ice+cream" "de" "Eis"
         (sample_request (Some "7")
            [("url", "http://x"); ("context", "We had ice cream.")]) w1
       = (Returns (RvStr "OK"), w2)
    /\ searches (pending w2) = [set_search_contribution c s]
    /\ word (origin c) = "ice cream".
Proof.
  destruct (contribute_after_lookup_links_the_search
              "en" "ice+cream" "de" "Eis" (sample_request (Some "7") [])
              (sample_request (Some "7")
                 [("url", "http://x"); ("context", "We had ice cream.")])
              sample_world_in_session 1 "http://x" "We had ice cream."
              english german eq_refl eq_refl eq_refl eq_refl eq_refl)
    as (w1 & w2 & s & c & H1 & H2 & _ & _ & Hs & _ & _ & Ho & _).
  exists w1, w2, s, c. repeat split; assumption.
Defined.

(** ** Keys and the order of rows *)

Lemma NoDup_map_inj {A} (f : A -> Z) (l : list A) (x y : A) :
  NoDup (map f l) -> x ∈ l -> y ∈ l -> f x = f y -> x = y.
Proof.
  induction l as [|a l IH]; intros Hn Hx Hy E; [inversion Hx|].
  simpl in Hn. apply NoDup_cons in Hn as [Hnotin Hn].
  assert (Hmem : forall z, z ∈ l -> f z ∈ map f l).
  { intros z Hz. apply list_elem_of_In, in_map. now apply list_elem_of_In. }
  apply elem_of_cons in Hx as [->|Hx]; apply elem_of_cons in Hy as [->|Hy].
  - reflexivity.
  - exfalso. apply Hnotin. rewrite E. now apply Hmem.
  - exfalso. apply Hnotin. rewrite <- E. now apply Hmem.
  - now apply IH.
Qed.

(** X9: with distinct search keys, the search that
    [filter_by(...).order_by(id desc).first()] selects does not depend on
    the order in which the rows are stored. *)
Theorem latest_search_ignores_row_order
    (user : Z) (w : Word) (language : Language) (st st' : Store) :
  NoDup (map search_id (searches st)) ->
  searches st ≡ₚ searches st' ->
  latest_search user w language st = latest_search user w language st'.
Proof.
  intros Hn Hp.
  assert (Hmem : forall x, x ∈ searches st <-> x ∈ searches st')
    by (intros x; now rewrite Hp).
  destruct (latest_search user w language st) as [m|] eqn:E;
    destruct (latest_search user w language st') as [m'|] eqn:E';
    try reflexivity.
  - apply latest_search_Some in E as (Hin & Hm & Hmax).
    apply latest_search_Some in E' as (Hin' & Hm' & Hmax').
    f_equal. apply (NoDup_map_inj search_id (searches st)); auto.
    + now apply Hmem.
    + assert (search_id m' <= search_id m)
        by (apply Hmax; [now apply Hmem | exact Hm']).
      assert (search_id m <= search_id m')
        by (apply Hmax'; [now apply Hmem | exact Hm]).
      lia.
  - apply latest_search_Some in E as (Hin & Hm & _).
    rewrite (latest_search_None _ _ _ _ E' m) in Hm; [discriminate|].
    now apply Hmem.
  - apply latest_search_Some in E' as (Hin' & Hm' & _).
    rewrite (latest_search_None _ _ _ _ E m') in Hm'; [discriminate|].
    now apply Hmem.
Qed.

Lemma latest_search_ignores_row_order_witness :
  latest_search 1 (mkWord 1 "cat" english) german
    (set_searches
       (fun _ => [mkSearch 1 1 (mkWord 1 "cat" english) german None None;
                  mkSearch 2 1 (mkWord 1 "cat" english) german None None])
       sample_store)
  = latest_search 1 (mkWord 1 "cat" english) german
      (set_searches
         (fun _ => [mkSearch 2 1 (mkWord 1 "cat" english) german None None;
                    mkSearch 1 1 (mkWord 1 "cat" english) german None None])
         sample_store).
Proof.
  apply latest_search_ignores_row_order.
  - simpl. apply NoDup_cons. split.
    + intros H. apply list_elem_of_singleton in H. discriminate H.
    + apply NoDup_singleton.
  - simpl. apply perm_swap.
Defined.

Lemma attach_contribution_keys (key : Z) (c : Contribution) (l : list Search) :
  map search_id (attach_contribution key c l) = map search_id l.
Proof.
  unfold attach_contribution. rewrite map_map. apply map_ext.
  intros s. destruct (search_id s =? key)%Z; reflexivity.
Qed.

(** X10: [lookup] and [contribute_with_context] keep the keys of the word,
    url, text, search and contribution tables pairwise distinct, whatever
    their outcome. *)
Theorem writing_views_keep_keys_unique (w : World) :
  keys_unique (pending w) ->
  (forall from_lang term to_lang req,
     keys_unique (pending (snd (views.lookup from_lang term to_lang req w))))
  /\ (forall from_lang_code term to_lang_code tr req,
        keys_unique
          (pending (snd (views.contribute_with_context
                           from_lang_code term to_lang_code tr req w)))).
Proof.
  intros (Hw & Hu & Ht & Hs & Hc). split.
  - intros from_lang term to_lang req.
    destruct (lookup_cases from_lang term to_lang req w)
      as [[e H] | (user & fl & tl & Hg & Hf & Hto)].
    + rewrite H. simpl. now repeat split.
    + rewrite (lookup_run from_lang term to_lang req w user fl tl Hg Hf Hto).
      simpl. repeat split; auto.
      * now apply words_after_keys.
      * destruct (form req !! "text"); simpl;
          [now apply NoDup_snoc_next_id | now rewrite app_nil_r].
      * now apply NoDup_snoc_next_id.
  - intros from_lang_code term to_lang_code tr req.
    destruct (contribute_with_context_cases
                from_lang_code term to_lang_code tr req w)
      as [H | [H | (user & address & context & fl & tl
                    & Hg & Hfu & Hfc & Hf & Hto)]].
    + rewrite H. simpl. now repeat split.
    + destruct H as (e & url_rows & word_rows & H & _ & _ & Ku & Kw).
      rewrite H. simpl. repeat split; auto.
    + rewrite (contribute_with_context_run from_lang_code term to_lang_code
                 tr req w user address context fl tl Hg Hfu Hfc Hf Hto).
      simpl. repeat split.
      * apply words_after_keys. simpl. now apply words_after_keys.
      * now apply urls_after_keys.
      * now apply NoDup_snoc_next_id.
      * destruct (latest_search _ _ _ _); [|exact Hs].
        simpl. now rewrite attach_contribution_keys.
      * now apply NoDup_snoc_next_id.
Qed.

Lemma writing_views_keep_keys_unique_witness :
  keys_unique
    (pending (snd (views.lookup "en" "cat" (LangCode "de")
                     (sample_request (Some "7") [("text", "The cat sat")])
                     sample_world_with_contributions)))
  /\ keys_unique
       (pending (snd (views.contribute_with_context "en" "cat" "de" "Kater"
                        (sample_request (Some "7")
                           [("url", "http://y"); ("context", "The cat sat")])
                        sample_world_with_contributions))).
Proof.
  assert (K : keys_unique (pending sample_world_with_contributions)).
  { repeat split; simpl;
      repeat (apply NoDup_cons; split;
              [intros H;
               repeat (apply elem_of_cons in H as [H|H]; [discriminate H|]);
               now apply elem_of_nil in H|]);
      apply NoDup_nil_2. }
  destruct (writing_views_keep_keys_unique sample_world_with_contributions K)
    as [H1 H2].
  split; [apply H1 | apply H2].
Defined.

(** ** The lookup with the preferred target *)

Lemma session_checked_resolves (key : Z) (s : Session) (w : World) :
  sessions (pending w) !! key = Some s ->
  sessions (pending (session_checked key s w)) !! key
  = Some (set_last_use (clock w (ticks w)) s).
Proof. intros H. simpl. now rewrite lookup_alter_eq, H. Qed.



Lemma lookup_without_target (from_lang term : string) (req : Request)
    (w : World) :
  views.lookup from_lang term LangNone req w = (Raises NotFound, w).
Proof.
  unfold views.lookup. unfold bind at 1, Language_find at 1, bind at 1,
    get_store at 1.
  cbv beta iota.
  destruct (known_language from_lang (pending w)); reflexivity.
Qed.

(** X12: under a resolved session whose user has no learned language, a
    lookup without target is answered with a server error that carries no
    cross-origin header; no search is logged, nothing is committed, and
    the stamps on the session stay in the unit of work only. *)
Theorem lookup_preferred_without_learned_language
    (from_lang term : string) (req : Request) (w : World) (s : Session)
    (u : User) :
  resolve_session req w = Some s ->
  users (pending w) !! session_user s = Some u ->
  learned_language u = None ->
  let answer := flask_dispatch (api.lookup_preferred from_lang term) req w in
  fst answer = mkResponse 500 ∅ "text/html" (BodyText EmptyString)
  /\ searches (pending (snd answer)) = searches (pending w)
  /\ words (pending (snd answer)) = words (pending w)
  /\ committed (snd answer) = committed w
  /\ ticks (snd answer) = S (S (ticks w)).
Proof.
  unfold resolve_session. intros Hr Hu Hl.
  destruct (args req !! "session") as [value|] eqn:Ha; [|discriminate].
  simpl in Hr.
  destruct (python_int value) as [key|] eqn:Hi; [|discriminate].
  simpl in Hr.
  set (w1 := session_checked key s w).
  set (s1 := set_last_use (clock w (ticks w)) s).
  set (w2 := session_checked key s1 w1).
  assert (Hs1 : sessions (pending w1) !! key = Some s1)
    by now apply session_checked_resolves.
  assert (Hinner : api.lookup from_lang term LangNone req w1
                   = (Raises NotFound, w2)).
  { unfold api.lookup. apply cross_domain_raises.
    rewrite (with_session_resolved _ req w1 value key s1 Ha Hi Hs1).
    apply lookup_without_target. }
  assert (Hout : api.lookup_preferred from_lang term req w
                 = (Raises NotFound, w2)).
  { unfold api.lookup_preferred. apply cross_domain_raises.
    rewrite (with_session_resolved _ req w value key s Ha Hi Hr).
    fold w1. unfold bind at 1, get_g_user. simpl g_user. cbv beta iota.
    unfold bind at 1, get_store. cbv beta iota.
    change (users (pending w1)) with (users (pending w)).
    rewrite Hu, Hl. exact Hinner. }
  assert (E : flask_dispatch (api.lookup_preferred from_lang term) req w
              = (mkResponse 500 ∅ "text/html" (BodyText EmptyString), w2)).
  { unfold flask_dispatch, bind at 1. now rewrite Hout. }
  cbv zeta. rewrite E. simpl. repeat split.
Qed.

Lemma lookup_preferred_without_learned_language_witness :
  let w := mkWorld
             (mkStore {[ 7 := mkSession 7 1 0 ]}
                      {[ 1 := mkUser 1 "bob@example.com" None None ]}
                      [english; german] [] [] [] [] [] [])
             sample_store None (fun n => Z.of_nat n) 0 in
  fst (flask_dispatch (api.lookup_preferred "en" "cat")
         (sample_request (Some "7") []) w)
  = mkResponse 500 ∅ "text/html" (BodyText EmptyString).
Proof.
  intros w.
  apply (lookup_preferred_without_learned_language
           "en" "cat" (sample_request (Some "7") []) w (mkSession 7 1 0)
           (mkUser 1 "bob@example.com" None None) eq_refl eq_refl eq_refl).
Defined.

(** ** Session tokens *)

Example python_str_samples :
  python_str 123141516 = "123141516" /\ python_str (-7) = "-7"
  /\ python_str 0 = "0".
Proof. repeat split. Qed.

Lemma read_digits_string_of_uint (d : Decimal.uint) (acc : Z) :
  read_digits acc (DecimalString.NilEmpty.string_of_uint d)
  = Some (uint_value acc d).
Proof.
  revert acc. induction d; intros acc; simpl; try reflexivity;
    rewrite IHd; f_equal; f_equal; unfold digit_value; simpl; lia.
Qed.

Lemma of_uint_acc_value (d : Decimal.uint) (acc : positive) :
  Z.pos (Pos.of_uint_acc d acc) = uint_value (Z.pos acc) d.
Proof.
  revert acc. induction d; intros acc; simpl; try reflexivity;
    rewrite IHd; f_equal; lia.
Qed.

Lemma of_uint_value (d : Decimal.uint) :
  Z.of_N (Pos.of_uint d) = uint_value 0 d.
Proof.
  induction d; simpl; try reflexivity; try exact IHd;
    rewrite of_uint_acc_value; reflexivity.
Qed.

Lemma python_int_digits (d : Decimal.uint) :
  d <> Decimal.Nil ->
  python_int (DecimalString.NilEmpty.string_of_uint d)
  = Some (uint_value 0 d)
  /\ read_unsigned (DecimalString.NilEmpty.string_of_uint d)
     = Some (uint_value 0 d).
Proof.
  intros Hd.
  assert (Hu : read_unsigned (DecimalString.NilEmpty.string_of_uint d)
               = Some (uint_value 0 d)).
  { rewrite <- read_digits_string_of_uint.
    destruct d; [congruence | reflexivity ..]. }
  split; [|exact Hu].
  rewrite <- Hu. destruct d; [congruence | reflexivity ..].
Qed.

Lemma python_int_by_sign (s : string) :
  python_int s
  = match skip_space s with
    | String c rest =>
        if Ascii.eqb c "+" then read_unsigned rest
        else if Ascii.eqb c "-" then Z.opp <$> read_unsigned rest
        else read_unsigned s
    | EmptyString => read_unsigned s
    end.
Proof.
  unfold python_int. destruct (skip_space s) as [|c rest]; [reflexivity|].
  destruct c as [[] [] [] [] [] [] [] []]; reflexivity.
Qed.

Lemma space_not_digit (c : ascii) :
  unicode_isspace c = true -> is_digit c = false.
Proof.
  intros H. destruct (is_digit c) eqn:E; [|reflexivity].
  apply digit_not_space in E. congruence.
Qed.

Lemma skip_space_trail (s trail : string) :
  string_forallb unicode_isspace trail = true ->
  skip_space (s +:+ trail)
  = match skip_space s with
    | EmptyString => EmptyString
    | String c rest => String c (rest +:+ trail)
    end.
Proof.
  intros Ht. induction s as [|c s IH]; simpl.
  - now apply skip_space_all.
  - destruct (unicode_isspace c); [exact IH | reflexivity].
Qed.

Lemma read_digits_trail (s trail : string) (acc : Z) :
  string_forallb unicode_isspace trail = true ->
  read_digits acc (s +:+ trail) = read_digits acc s.
Proof.
  intros Ht. revert acc. induction s as [|c s IH]; intros acc.
  - simpl. destruct trail as [|c t]; [reflexivity|].
    pose proof Ht as Ht'. simpl in Ht'. apply andb_true_iff in Ht' as [Hc Htl].
    simpl. rewrite (space_not_digit c Hc), Hc.
    now rewrite (skip_space_all _ Htl).
  - change (String c s +:+ trail) with (String c (s +:+ trail)).
    simpl. destruct (is_digit c); [apply IH|].
    destruct (unicode_isspace c); [|reflexivity].
    rewrite (skip_space_trail _ _ Ht).
    destruct (skip_space s); reflexivity.
Qed.

Lemma read_unsigned_trail (s trail : string) :
  string_forallb unicode_isspace trail = true ->
  read_unsigned (s +:+ trail) = read_unsigned s.
Proof.
  intros Ht. unfold read_unsigned. rewrite (skip_space_trail _ _ Ht).
  destruct (skip_space s) as [|c rest]; [reflexivity|].
  destruct (is_digit c); [|reflexivity].
  change (String c (rest +:+ trail)) with (String c rest +:+ trail).
  now apply read_digits_trail.
Qed.

Lemma read_unsigned_lead (lead s : string) :
  string_forallb unicode_isspace lead = true ->
  read_unsigned (lead +:+ s) = read_unsigned s.
Proof. intros Hl. unfold read_unsigned. now rewrite (skip_space_app _ _ Hl). Qed.

Lemma python_int_padding (lead s trail : string) :
  string_forallb unicode_isspace lead = true ->
  string_forallb unicode_isspace trail = true ->
  python_int (lead +:+ s +:+ trail) = python_int s.
Proof.
  intros Hl Ht. rewrite !python_int_by_sign.
  rewrite (skip_space_app _ _ Hl), (read_unsigned_lead _ _ Hl).
  rewrite (skip_space_trail _ _ Ht), !(read_unsigned_trail _ _ Ht).
  destruct (skip_space s) as [|c rest]; [reflexivity|].
  now rewrite (read_unsigned_trail _ _ Ht).
Qed.

Lemma python_int_python_str (n : Z) : python_int (python_str n) = Some n.
Proof.
  assert (Hpos : forall p, uint_value 0 (Pos.to_uint p) = Z.pos p).
  { intros p. rewrite <- of_uint_value, DecimalPos.Unsigned.of_to.
    reflexivity. }
  unfold python_str. destruct n as [|p|p]; simpl.
  - reflexivity.
  - pose proof (DecimalPos.Unsigned.to_uint_nonnil p) as Hn.
    destruct (python_int_digits (Pos.to_uint p) Hn) as [H _].
    rewrite <- (Hpos p), <- H.
    destruct (Pos.to_uint p); [congruence | reflexivity ..].
  - pose proof (DecimalPos.Unsigned.to_uint_nonnil p) as Hn.
    destruct (python_int_digits (Pos.to_uint p) Hn) as [_ H].
    unfold python_int. simpl.
    assert (E : read_unsigned
                  (DecimalString.NilZero.string_of_uint (Pos.to_uint p))
                = Some (Z.pos p)).
    { rewrite <- (Hpos p), <- H.
      destruct (Pos.to_uint p); [congruence | reflexivity ..]. }
    now rewrite E.
Qed.

(** X13: the token that [get_session] writes with [str] is read back by
    the [int] of the session check as the same key, for every integer
    key; white space around a session parameter never changes how it is
    read, so a padded token names the same session. *)
Theorem session_token_round_trip (n : Z) (s lead trail : string) :
  string_forallb unicode_isspace lead = true ->
  string_forallb unicode_isspace trail = true ->
  python_int (python_str n) = Some n
  /\ python_int (lead +:+ s +:+ trail) = python_int s
  /\ python_int (lead +:+ python_str n +:+ trail) = Some n.
Proof.
  intros Hl Ht. split; [apply python_int_python_str|].
  split; [now apply python_int_padding|].
  rewrite (python_int_padding _ _ _ Hl Ht). apply python_int_python_str.
Qed.

Lemma session_token_round_trip_witness :
  python_int (python_str 123141516) = Some 123141516
  /\ python_int (" " +:+ "+12" +:+ " ") = python_int "+12"
  /\ python_int (" " +:+ python_str 123141516 +:+ " ") = Some 123141516.
Proof.
  apply (session_token_round_trip 123141516 "+12" " " " "); reflexivity.
Defined.

(** ** Signing in *)

(** X14: [get_session] answers 400 when the [password] form field is
    missing, without consulting the credentials, and 401 when the
    credentials are refused; in both cases the world is left as it was, so
    that no session is created, and the answer has no cross-origin
    header. *)
Theorem get_session_refusals
    (authorize : string -> string -> Store -> option User)
    (for_user : User -> Store -> Session)
    (email : string) (req : Request) (w : World) :
  (form req !! "password" = None ->
   flask_dispatch (api_user.get_session authorize for_user email) req w
   = (mkResponse 400 ∅ "text/html" (BodyText EmptyString), w))
  /\ (forall password,
        form req !! "password" = Some password ->
        authorize email password (pending w) = None ->
        flask_dispatch (api_user.get_session authorize for_user email) req w
        = (mkResponse 401 ∅ "text/html" (BodyText EmptyString), w)).
Proof.
  split.
  - intros H. unfold flask_dispatch, bind at 1, api_user.get_session.
    rewrite (cross_domain_raises _ _ _ w (HTTPException 400)); [reflexivity|].
    unfold views_user.get_session. now rewrite H.
  - intros password H Ha.
    unfold flask_dispatch, bind at 1, api_user.get_session.
    rewrite (cross_domain_raises _ _ _ w (HTTPException 401)); [reflexivity|].
    unfold views_user.get_session. rewrite H.
    unfold bind, get_store. simpl. now rewrite Ha.
Qed.

Lemma get_session_refusals_witness :
  flask_dispatch (api_user.get_session sample_authorize sample_for_user
                    "alice@example.com")
    (sample_request None [("password", "guess")]) sample_world
  = (mkResponse 401 ∅ "text/html" (BodyText EmptyString), sample_world).
Proof.
  destruct (get_session_refusals sample_authorize sample_for_user
              "alice@example.com"
              (sample_request None [("password", "guess")]) sample_world)
    as [_ H].
  apply (H "guess"); reflexivity.
Defined.

(** X15: when the credentials are accepted and the key of the new session
    is not in use, [get_session] answers with [str] of that key, stores
    the session under it, keeps every other session and commits; a later
    request that carries the answer as its [session] parameter passes the
    session check as that session, and the view runs with the session's
    user in [flask.g.user]. *)
Theorem get_session_token_opens_the_session
    (authorize : string -> string -> Store -> option User)
    (for_user : User -> Store -> Session)
    (email password : string) (req : Request) (w : World) (u : User) :
  form req !! "password" = Some password ->
  authorize email password (pending w) = Some u ->
  sessions (pending w) !! session_id (for_user u (pending w)) = None ->
  let s := for_user u (pending w) in
  exists w' : World,
    views_user.get_session authorize for_user email req w
    = (Returns (RvStr (python_str (session_id s))), w')
    /\ sessions (pending w') = <[session_id s := s]> (sessions (pending w))
    /\ committed w' = pending w'
    /\ (forall k, k <> session_id s ->
          sessions (pending w') !! k = sessions (pending w) !! k)
    /\ (forall (view : View) (req' : Request),
          args req' !! "session" = Some (python_str (session_id s)) ->
          resolve_session req' w' = Some s
          /\ with_session view req' w'
             = view req' (session_checked (session_id s) s w')
          /\ g_user (session_checked (session_id s) s w')
             = Some (session_user s)).
Proof.
  intros Hp Ha Hfree s.
  exists (mkWorld (set_sessions (insert (session_id s) s) (pending w))
                  (set_sessions (insert (session_id s) s) (pending w))
                  (g_user w) (clock w) (ticks w)).
  split.
  { unfold views_user.get_session. rewrite Hp.
    unfold bind at 1, get_store. cbv beta iota. rewrite Ha.
    unfold bind at 1, db_session_add_session, bind at 1, get_store.
    cbv beta iota. rewrite Hfree. reflexivity. }
  simpl. split; [reflexivity|]. split; [reflexivity|].
  split; [intros k Hk; now apply lookup_insert_ne|].
  intros view req' Hreq.
  assert (Hs : <[session_id s := s]> (sessions (pending w)) !! session_id s
               = Some s) by apply lookup_insert_eq.
  split; [|split; [|reflexivity]].
  - unfold resolve_session. rewrite Hreq. simpl.
    rewrite python_int_python_str. simpl. exact Hs.
  - apply (with_session_resolved view req' _ (python_str (session_id s)));
      [exact Hreq | apply python_int_python_str | exact Hs].
Qed.

Lemma get_session_token_opens_the_session_witness :
  exists w' : World,
    views_user.get_session sample_authorize sample_for_user
      "alice@example.com" (sample_request None [("password", "pw123")])
      sample_world
    = (Returns (RvStr "8"), w')
    /\ resolve_session (sample_request (Some "8") []) w'
       = Some (mkSession 8 1 0).
Proof.
  destruct (get_session_token_opens_the_session
              sample_authorize sample_for_user "alice@example.com" "pw123"
              (sample_request None [("password", "pw123")]) sample_world
              (mkUser 1 "alice@example.com" (Some german) (Some english))
              eq_refl eq_refl eq_refl)
    as (w' & Hrun & _ & _ & _ & Hlater).
  exists w'. split; [exact Hrun|].
  apply (Hlater views.validate (sample_request (Some "8") [])).
  reflexivity.
Defined.

(** ** Reading the languages of the user *)

Lemma get_g_user_row_run (w : World) (user : Z) (u : User) :
  g_user w = Some user ->
  users (pending w) !! user = Some u ->
  get_g_user_row w = (Returns u, w).
Proof.
  intros Hg Hu. unfold get_g_user_row, bind, get_g_user, get_store.
  rewrite Hg. simpl. now rewrite Hu.
Qed.

(** X16: under a resolved session of a stored user, [learned_language] and
    [native_language] answer 200 with the code of the language and the
    cross-origin header when the language is set, and a server error
    without that header when it is not, the view having returned [None];
    [learned_and_native_language] answers 200 with a JSON object in both
    cases, the missing language being [null]. *)
Theorem language_getters
    (req : Request) (w : World) (s : Session) (u : User) :
  resolve_session req w = Some s ->
  users (pending w) !! session_user s = Some u ->
  let answer_of (o : option string) :=
    match o with
    | Some code =>
        mkResponse 200 {[ cors_header := "*" ]} "text/html" (BodyText code)
    | None => mkResponse 500 ∅ "text/html" (BodyText EmptyString)
    end in
  fst (flask_dispatch api_user.learned_language req w)
  = answer_of (language_id <$> learned_language u)
  /\ fst (flask_dispatch api_user.native_language req w)
     = answer_of (language_id <$> native_language u)
  /\ fst (flask_dispatch api_user.learned_and_native_language req w)
     = mkResponse 200 {[ cors_header := "*" ]} "application/json"
         (BodyJson
            (JObj [("native",
                    json_of_option (language_id <$> native_language u));
                   ("learned",
                    json_of_option (language_id <$> learned_language u))])).
Proof.
  unfold resolve_session. intros Hr Hu.
  destruct (args req !! "session") as [value|] eqn:Ha; [|discriminate].
  simpl in Hr.
  destruct (python_int value) as [key|] eqn:Hi; [|discriminate].
  simpl in Hr.
  assert (Hrow : get_g_user_row (session_checked key s w)
                 = (Returns u, session_checked key s w))
    by now apply (get_g_user_row_run _ (session_user s)).
  assert (Hview : forall (f : User -> view_result),
            flask_dispatch
              (cross_domain
                 (with_session
                    (fun _ => bind get_g_user_row (fun x => ret (f x)))))
              req w
            = flask_dispatch (cross_domain (fun _ => ret (f u))) req
                (session_checked key s w)).
  { intros f. unfold flask_dispatch, cross_domain.
    unfold bind at 1 2 4 5.
    rewrite (with_session_resolved _ req w value key s Ha Hi Hr).
    unfold bind at 1. now rewrite Hrow. }
  cbv zeta. split; [|split].
  - unfold api_user.learned_language, views_user.learned_language.
    rewrite (Hview (fun x => rv_of_option (learned_language_id x))).
    unfold learned_language_id. destruct (learned_language u); reflexivity.
  - unfold api_user.native_language, views_user.native_language.
    rewrite (Hview (fun x => rv_of_option (native_language_id x))).
    unfold native_language_id. destruct (native_language u); reflexivity.
  - unfold api_user.learned_and_native_language,
      views_user.learned_and_native_language.
    rewrite (Hview (fun x =>
               RvResponse
                 (json_response
                    (JObj [("native", json_of_option (native_language_id x));
                           ("learned",
                            json_of_option (learned_language_id x))])))).
    reflexivity.
Qed.

Lemma language_getters_witness :
  fst (flask_dispatch api_user.learned_language
         (sample_request (Some "7") []) sample_world)
  = mkResponse 200 {[ cors_header := "*" ]} "text/html" (BodyText "de").
Proof.
  destruct (language_getters (sample_request (Some "7") []) sample_world
              (mkSession 7 1 0)
              (mkUser 1 "alice@example.com" (Some german) (Some english))
              eq_refl eq_refl) as [H _].
  exact H.
Defined.

(** ** Views that only read *)

Lemma mapM_reads {A B} (f : A -> M B) (l : list A) (w : World) :
  (forall x w0, snd (f x w0) = w0) -> snd (mapM f l w) = w.
Proof.
  intros Hf. revert w. induction l as [|x l IH]; intros w; simpl;
    [reflexivity|].
  unfold bind at 1. pose proof (Hf x w) as Hx.
  destruct (f x w) as [[y|e] w1]; simpl in Hx; subst w1; [|reflexivity].
  unfold bind at 1. pose proof (IH w) as Hl.
  destruct (mapM f l w) as [[ys|e] w1]; simpl in Hl; subst w1; reflexivity.
Qed.

Lemma bind_reads {A B} (m : M A) (k : A -> M B) (w : World) :
  snd (m w) = w -> (forall a, snd (k a w) = w) -> snd (bind m k w) = w.
Proof.
  intros Hm Hk. unfold bind.
  destruct (m w) as [[a|e] w1]; simpl in Hm; subst w1; [apply Hk|reflexivity].
Qed.

Lemma contributions_by_day_reads (strftime : Z -> string)
    (Text_time : Text -> Z) (return_context : string) :
  reads_only (views.contributions_by_day strftime Text_time return_context).
Proof.
  intros req w. unfold views.contributions_by_day.
  apply bind_reads; [unfold get_g_user; now destruct (g_user w)|].
  intros user. apply bind_reads; [reflexivity|].
  intros grouped. apply bind_reads; [|reflexivity].
  apply mapM_reads. intros d w0. unfold views.date_entry.
  apply bind_reads; [unfold dict_getitem; now destruct (_ !! d)|].
  intros day. apply bind_reads; [|reflexivity].
  apply mapM_reads. intros c w1. unfold views.contrib_entry.
  now destruct (text_url (contribution_text c)).
Qed.

Lemma get_g_user_row_reads {A} (k : User -> A) (w : World) :
  snd (bind get_g_user_row (fun u => ret (k u)) w) = w.
Proof.
  unfold bind, get_g_user_row, bind, get_g_user, get_store.
  destruct (g_user w); [|reflexivity]. simpl.
  destruct (users (pending w) !! _); reflexivity.
Qed.

Lemma guarded_reader (view : View) (req : Request) (w : World) :
  reads_only view ->
  at_most_stamped w (snd (flask_dispatch (cross_domain (with_session view))
                            req w)).
Proof.
  intros Hv. unfold flask_dispatch, cross_domain.
  destruct (resolve_session req w) as [s|] eqn:Hr.
  - unfold resolve_session in Hr.
    destruct (args req !! "session") as [value|] eqn:Ha; [|discriminate].
    simpl in Hr.
    destruct (python_int value) as [key|] eqn:Hi; [|discriminate].
    simpl in Hr. right. exists key, s. split; [exact Hr|].
    unfold bind at 1 2.
    rewrite (with_session_resolved _ req w value key s Ha Hi Hr).
    pose proof (Hv req (session_checked key s w)) as Hw.
    destruct (view req (session_checked key s w)) as [[rv|e] w1];
      simpl in Hw; subst w1; [|reflexivity].
    destruct rv; reflexivity.
  - left. unfold bind at 1 2.
    now rewrite (with_session_unresolved _ _ _ Hr).
Qed.

(** X17: serving [validate], [contributions_by_day], [learned_language],
    [native_language] or [learned_and_native_language] changes the world
    by at most the stamp of the session check on the resolved session:
    these routes write no table and commit nothing, so the stamp stays in
    the unit of work. *)
Theorem reading_routes_never_commit
    (strftime : Z -> string) (Text_time : Text -> Z)
    (return_context : string) (req : Request) (w : World) :
  let served (route : View) := snd (flask_dispatch route req w) in
  (forall w', at_most_stamped w w' ->
     committed w' = committed w
     /\ set_sessions (fun _ => sessions (pending w)) (pending w') = pending w)
  /\ at_most_stamped w (served api.validate)
  /\ at_most_stamped w
       (served (api.contributions_by_day strftime Text_time return_context))
  /\ at_most_stamped w (served api_user.learned_language)
  /\ at_most_stamped w (served api_user.native_language)
  /\ at_most_stamped w (served api_user.learned_and_native_language).
Proof.
  cbv zeta. split.
  { intros w' [->|(key & s & _ & ->)].
    - split; [reflexivity|]. destruct w as [[] ? ? ? ?]. reflexivity.
    - split; [reflexivity|]. destruct w as [[] ? ? ? ?]. reflexivity. }
  split; [apply guarded_reader; intros r0 w0; reflexivity|].
  split; [apply guarded_reader, contributions_by_day_reads|].
  split; [apply guarded_reader; intros r0 w0; apply get_g_user_row_reads|].
  split; [apply guarded_reader; intros r0 w0; apply get_g_user_row_reads|].
  apply guarded_reader; intros r0 w0; apply get_g_user_row_reads.
Qed.

(** ** Registration *)

Lemma flask_dispatch_ext (view1 view2 : View) (req1 req2 : Request)
    (w1 w2 : World) :
  view1 req1 w1 = view2 req2 w2 ->
  flask_dispatch view1 req1 w1 = flask_dispatch view2 req2 w2.
Proof. intros H. unfold flask_dispatch, bind. now rewrite H. Qed.

Lemma cross_domain_ext (view1 view2 : View) (req1 req2 : Request)
    (w1 w2 : World) :
  view1 req1 w1 = view2 req2 w2 ->
  cross_domain view1 req1 w1 = cross_domain view2 req2 w2.
Proof. intros H. unfold cross_domain, bind. now rewrite H. Qed.

(** X18: [add_user] answers 400 and leaves the world as it was when the
    [password] form field is missing, when the constructor of the user
    raises [ValueError], and when the store refuses the row; otherwise it
    stores the user under a new key, commits, and answers what
    [get_session] answers in the world with that user, so that the user
    stays registered whatever the sign-in then answers. *)
Theorem add_user_outcomes
    (new : string -> string -> option User)
    (conflicts : User -> Store -> bool)
    (authorize : string -> string -> Store -> option User)
    (for_user : User -> Store -> Session)
    (email : string) (req : Request) (w : World) :
  let route := api_register.add_user new conflicts authorize for_user email in
  let refused := (mkResponse 400 ∅ "text/html" (BodyText EmptyString), w) in
  match form req !! "password" with
  | None => flask_dispatch route req w = refused
  | Some password =>
      match new email password with
      | None => flask_dispatch route req w = refused
      | Some u =>
          if conflicts u (pending w)
          then flask_dispatch route req w = refused
          else
            let st := with_new_user u (pending w) in
            let w1 := mkWorld st st (g_user w) (clock w) (ticks w) in
            flask_dispatch route req w
            = flask_dispatch (api_user.get_session authorize for_user email)
                req w1
            /\ users st !! next_user_id (pending w)
               = Some (set_user_id (next_user_id (pending w)) u)
            /\ users (pending w) !! next_user_id (pending w) = None
            /\ users (committed (snd (flask_dispatch route req w)))
               = users st
      end
  end.
Proof.
  cbv zeta.
  assert (Hrefuse :
    views_register.add_user new conflicts authorize for_user email req w
    = (Raises (HTTPException 400), w) ->
    flask_dispatch
      (api_register.add_user new conflicts authorize for_user email) req w
    = (mkResponse 400 ∅ "text/html" (BodyText EmptyString), w)).
  { intros H. unfold flask_dispatch, bind at 1, api_register.add_user.
    now rewrite (cross_domain_raises _ _ _ w (HTTPException 400)). }
  destruct (form req !! "password") as [password|] eqn:Hp.
  2:{ apply Hrefuse. unfold views_register.add_user. now rewrite Hp. }
  destruct (new email password) as [u|] eqn:Hn.
  2:{ apply Hrefuse. unfold views_register.add_user. now rewrite Hp, Hn. }
  destruct (conflicts u (pending w)) eqn:Hc.
  { apply Hrefuse. unfold views_register.add_user. rewrite Hp, Hn.
    unfold bind, get_store. simpl. now rewrite Hc. }
  set (st := with_new_user u (pending w)).
  set (w1 := mkWorld st st (g_user w) (clock w) (ticks w)).
  assert (Hview :
    views_register.add_user new conflicts authorize for_user email req w
    = api_user.get_session authorize for_user email req w1).
  { unfold views_register.add_user. rewrite Hp, Hn.
    unfold bind at 1, get_store. cbv beta iota. rewrite Hc.
    reflexivity. }
  assert (Hroute :
    flask_dispatch
      (api_register.add_user new conflicts authorize for_user email) req w
    = flask_dispatch (api_user.get_session authorize for_user email) req w1).
  { unfold api_register.add_user, api_user.get_session.
    apply flask_dispatch_ext.
    rewrite <- (cross_domain_idempotent
                  (views_user.get_session authorize for_user email) req w1).
    apply cross_domain_ext. exact Hview. }
  split; [exact Hroute|]. split; [apply lookup_insert_eq|].
  split.
  { unfold next_user_id, next_id.
    destruct (users (pending w) !! _) as [x|] eqn:E; [|reflexivity].
    exfalso. apply (next_id_fresh (fst <$> map_to_list (users (pending w)))).
    apply list_elem_of_fmap. exists (next_user_id (pending w), x).
    split; [reflexivity|]. now apply elem_of_map_to_list. }
  rewrite Hroute. unfold flask_dispatch, api_user.get_session, cross_domain.
  unfold bind at 1 2, views_user.get_session. rewrite Hp.
  unfold bind at 1, get_store. cbv beta iota.
  destruct (authorize email _ _) as [a|]; [|reflexivity].
  unfold bind at 1, db_session_add_session, bind at 1, get_store.
  cbv beta iota.
  destruct (sessions (pending w1) !! _); reflexivity.
Qed.

Lemma add_user_outcomes_witness :
  fst (flask_dispatch
         (api_register.add_user sample_user_new sample_user_conflicts
            sample_authorize sample_for_user "bob@example.com")
         (sample_request None [("password", "pw123")]) sample_world)
  = mkResponse 200 {[ cors_header := "*" ]} "text/html" (BodyText "8")
  /\ flask_dispatch
       (api_register.add_user sample_user_new sample_user_conflicts
          sample_authorize sample_for_user "alice@example.com")
       (sample_request None [("password", "pw123")]) sample_world
     = (mkResponse 400 ∅ "text/html" (BodyText EmptyString), sample_world).
Proof.
  split.
  - destruct (add_user_outcomes sample_user_new sample_user_conflicts
                sample_authorize sample_for_user "bob@example.com"
                (sample_request None [("password", "pw123")]) sample_world)
      as [H _].
    rewrite H. vm_compute. reflexivity.
  - exact (add_user_outcomes sample_user_new sample_user_conflicts
             sample_authorize sample_for_user "alice@example.com"
             (sample_request None [("password", "pw123")]) sample_world).
Defined.

(** ** The one search that a contribution is linked to *)

Lemma attach_contribution_one_row (c : Contribution) (l : list Search)
    (s : Search) (i : nat) :
  NoDup (map search_id l) ->
  l !! i = Some s ->
  attach_contribution (search_id s) c l
  = <[i := set_search_contribution c s]> l.
Proof.
  intros Hn Hi. apply list_eq. intros j.
  unfold attach_contribution.
  change (map ?f l) with (f <$> l). rewrite list_lookup_fmap.
  destruct (decide (i = j)) as [<-|Hij].
  - rewrite list_lookup_insert_eq by (now apply lookup_lt_Some in Hi).
    rewrite Hi. simpl. now rewrite Z.eqb_refl.
  - rewrite list_lookup_insert_ne by exact Hij.
    destruct (l !! j) as [x|] eqn:Hj; [|reflexivity]. simpl.
    destruct (search_id x =? search_id s)%Z eqn:E; [|reflexivity].
    apply Z.eqb_eq in E. exfalso. apply Hij.
    apply (NoDup_lookup (map search_id l) i j (search_id s)); [exact Hn| |].
    + change (map search_id l) with (search_id <$> l).
      now rewrite list_lookup_fmap, Hi.
    + change (map search_id l) with (search_id <$> l).
      now rewrite list_lookup_fmap, Hj, <- E.
Qed.

(** X19: with distinct search keys, a successful
    [contribute_with_context] that finds a search of the user for the
    word and target language rewrites exactly one row of the search
    table, the found one, in place: the table after is the table before
    with that row carrying the new contribution; when it finds none the
    table is unchanged. *)
Theorem contribute_with_context_rewrites_one_search
    (from_lang_code term to_lang_code tr : string) (req : Request) (w : World)
    (user : Z) (address context : string) (fl tl : Language) :
  g_user w = Some user ->
  form req !! "url" = Some address ->
  form req !! "context" = Some context ->
  known_language from_lang_code (pending w) = Some fl ->
  known_language to_lang_code (pending w) = Some tl ->
  NoDup (map search_id (searches (pending w))) ->
  exists (w' : World) (c : Contribution),
    views.contribute_with_context from_lang_code term to_lang_code tr req w
    = (Returns (RvStr "OK"), w')
    /\ last (contributions (pending w')) = Some c
    /\ match latest_search user (origin c) tl (pending w) with
       | Some s =>
           exists i, searches (pending w) !! i = Some s
                     /\ searches (pending w')
                        = <[i := set_search_contribution c s]>
                            (searches (pending w))
       | None => searches (pending w') = searches (pending w)
       end.
Proof.
  intros Hg Hu Hc Hf Ht Hn.
  pose proof (contribute_with_context_run from_lang_code term to_lang_code tr
                req w user address context fl tl Hg Hu Hc Hf Ht) as Hrun.
  cbv zeta in Hrun.
  eexists _, _. split; [exact Hrun|]. simpl.
  split; [apply last_snoc|]. simpl.
  destruct (latest_search user _ tl (pending w)) as [s|] eqn:E;
    [|reflexivity].
  apply latest_search_Some in E as (Hin & _).
  apply list_elem_of_lookup in Hin as [i Hi].
  exists i. split; [exact Hi|].
  now apply attach_contribution_one_row.
Qed.

Lemma contribute_with_context_rewrites_one_search_witness :
  exists (w' : World) (c : Contribution),
    views.contribute_with_context "en" "cat" "de" "Katze"
      (sample_request (Some "7")
         [("url", "http://y"); ("context", "The cat sat")])
      sample_world_after_lookup
    = (Returns (RvStr "OK"), w')
    /\ last (contributions (pending w')) = Some c.
Proof.
  assert (Hn : NoDup (map search_id
                        (searches (pending sample_world_after_lookup)))).
  { simpl. apply NoDup_singleton. }
  destruct (contribute_with_context_rewrites_one_search
              "en" "cat" "de" "Katze"
              (sample_request (Some "7")
                 [("url", "http://y"); ("context", "The cat sat")])
              sample_world_after_lookup 1 "http://y" "The cat sat"
              english german eq_refl eq_refl eq_refl eq_refl eq_refl Hn)
    as (w' & c & Hrun & Hlast & _).
  exists w', c. split; assumption.
Defined.

Example contribute_after_lookup_sample :
  searches
    (pending
       (snd (views.contribute_with_context "en" "cat" "de" "Katze"
               (sample_request (Some "7")
                  [("url", "http://y"); ("context", "The cat sat")])
               sample_world_after_lookup)))
  = [mkSearch 1 1 (mkWord 1 "cat" english) german None
       (Some (mkContribution 1 (mkWord 1 "cat" english)
                (mkWord 2 "Katze" german) 1
                (mkText 1 "The cat sat" english
                   (Some (mkUrl 1 "http://y" EmptyString)))
                1001))].
Proof. vm_compute. reflexivity. Qed.
